(** * EcoPredict-AI: validation and preprocessing of emission-factor records

    A shallow embedding of the three Python sources

      - [utils/preprocessor.py]  ([preprocess_input], [validate_input_data]),
      - [simple_test.py]         (the explicit-dictionary [preprocess_input]),
      - [app.py]                 (the impact label of a prediction),

    together with the fragment of Python, pandas and scikit-learn they rest
    on.  Python floats are IEEE binary64 numbers and are embedded as Rocq's
    primitive floats, so that [nan], signed zeros and the comparison
    operators behave as they do in the interpreter. *)

From Stdlib Require Import ZArith List String Ascii Bool Floats Lia.
From stdpp Require Import base option list gmap strings.

Local Open Scope Z_scope.
Local Open Scope string_scope.
Local Open Scope list_scope.

Set Warnings "-inexact-float".

(** ** Python values and exceptions *)

(** The scalars a record or a data-frame cell holds: [None], [str], [float]
    and [int] (a Python [int] in a dictionary or in an object column, an
    [int64] or [uint64] in a frame).  [KeyError] is the exception of
    [df[col]], [KeyErrorNotInIndex] the [KeyError] of [df[cols]], whose
    message lists the labels that are no columns. *)
Inductive pyval : Type :=
  | PyNone
  | PyStr (s : string)
  | PyFloat (f : float)
  | PyInt (z : Z).

Inductive pyexn : Type :=
  | KeyError (key : string)
  | KeyErrorNotInIndex (missing : list string)
  | ValueError
  | TypeError
  | OverflowError
  | IndexError
  | ReferenceError
  | NotEmbedded.

(** Outcome of an expression that may raise. *)
Inductive res (A : Type) : Type :=
  | Ok (a : A)
  | Raise (e : pyexn).
Arguments Ok {A} a.
Arguments Raise {A} e.

Definition res_bind {A B} (r : res A) (k : A -> res B) : res B :=
  match r with
  | Ok a => k a
  | Raise e => Raise e
  end.

(** A number as pandas stores it: [int64] or [float64]. *)
Inductive number : Type :=
  | NInt (z : Z)
  | NFloat (f : float).

Definition pyval_of_number (n : number) : pyval :=
  match n with
  | NInt z => PyInt z
  | NFloat f => PyFloat f
  end.

Definition is_float (v : pyval) : bool :=
  match v with PyFloat _ => true | _ => false end.

Definition is_number (v : pyval) : bool :=
  match v with PyFloat _ | PyInt _ => true | _ => false end.

(** The two string-to-number readers are library code: [float(s)] of the
    interpreter and the reader behind [pandas.to_numeric].  They are kept
    abstract; [None] stands for a string the reader refuses.  An integer
    that [to_numeric] reads in a string is one that an [int64] or a
    [uint64] column holds (it reads a longer one as a float). *)
Class StrParsers : Type := {
  float_of_str : string -> option float;
  to_numeric_str : string -> option number;
  to_numeric_str_fits :
    forall s z, to_numeric_str s = Some (NInt z) -> (- 2 ^ 63 <= z < 2 ^ 64)%Z
}.

(** [float(z)] for an [int]: round to nearest even, [OverflowError] when the
    result does not fit a binary64. *)
Definition float_of_Z (z : Z) : float :=
  SF2Prim (binary_normalize prec emax z 0 false).

Definition is_inf (f : float) : bool :=
  PrimFloat.eqb f infinity || PrimFloat.eqb f neg_infinity.

Section PythonFloat.
Context `{StrParsers}.

(** The builtin [float(v)]. *)
Definition py_float (v : pyval) : res float :=
  match v with
  | PyNone => Raise TypeError
  | PyStr s =>
      match float_of_str s with
      | Some f => Ok f
      | None => Raise ValueError
      end
  | PyFloat f => Ok f
  | PyInt z =>
      let f := float_of_Z z in
      if is_inf f then Raise OverflowError else Ok f
  end.
End PythonFloat.

(** A Python [dict] with string keys. *)
Abbreviation dict := (gmap string pyval).


(** ** pandas: one-row data frames on a heap

    Both callers build the frame as [pd.DataFrame([input_data])]: one row, one
    column per key.  A frame is embedded as its ordered columns, each with
    the cell of row 0.  Frames are mutable objects: they live in a heap and
    are handled through references, so that [copy] and item assignment keep
    their aliasing behaviour. *)

Module pd.

Definition DataFrame : Type := list (string * pyval).

(** [df.columns.tolist()] and [df.iloc[0].values]. *)
Definition columns (df : DataFrame) : list string := map fst df.
Definition values (df : DataFrame) : list pyval := map snd df.

Fixpoint df_get (col : string) (df : DataFrame) : option pyval :=
  match df with
  | [] => None
  | (c, x) :: rest => if String.eqb c col then Some x else df_get col rest
  end.

Definition df_has (col : string) (df : DataFrame) : bool :=
  match df_get col df with Some _ => true | None => false end.

(** Item assignment keeps the position of an existing column and appends
    a new one. *)
Fixpoint df_set (col : string) (v : pyval) (df : DataFrame) : DataFrame :=
  match df with
  | [] => [(col, v)]
  | (c, x) :: rest =>
      if String.eqb c col then (c, v) :: rest else (c, x) :: df_set col v rest
  end.

(** The labels of [cols] that are no column of the frame. *)
Definition missing_labels (cols : list string) (df : DataFrame) : list string :=
  List.filter (fun c => negb (df_has c df)) cols.

Fixpoint df_take (cols : list string) (df : DataFrame) : DataFrame :=
  match cols with
  | [] => []
  | c :: rest =>
      match df_get c df with
      | Some x => (c, x) :: df_take rest df
      | None => df_take rest df
      end
  end.

(** [df[cols]] with a list of labels: the columns in the order of [cols],
    or one [KeyError] that names every label that is no column. *)
Definition df_select (cols : list string) (df : DataFrame) : res DataFrame :=
  match missing_labels cols df with
  | [] => Ok (df_take cols df)
  | missing => Raise (KeyErrorNotInIndex missing)
  end.

(** [pd.DataFrame([input_data])]. *)
Definition of_record (input_data : dict) : DataFrame := map_to_list input_data.

(** An integer that an [int64] or a [uint64] column can hold. *)
Definition fits_int64_or_uint64 (z : Z) : bool :=
  Z.leb (- 2 ^ 63) z && Z.ltb z (2 ^ 64).

(** [pd.to_numeric(cell, errors='coerce')]: a float is kept; an integer is
    kept when it fits [int64] or [uint64], becomes a float when it does not,
    and makes the call raise [OverflowError] when it is too large for a
    float; strings are read; [None] and unreadable strings become [nan]. *)
Definition to_numeric_coerce `{StrParsers} (x : pyval) : res pyval :=
  match x with
  | PyFloat f => Ok (PyFloat f)
  | PyInt z =>
      if fits_int64_or_uint64 z then Ok (PyInt z)
      else
        let f := float_of_Z z in
        if is_inf f then Raise OverflowError else Ok (PyFloat f)
  | PyStr s =>
      match to_numeric_str s with
      | Some n => Ok (pyval_of_number n)
      | None => Ok (PyFloat nan)
      end
  | PyNone => Ok (PyFloat nan)
  end.

(** [.fillna(value)] on a numeric cell. *)
Definition fillna (value : float) (x : pyval) : pyval :=
  match x with
  | PyFloat f => if PrimFloat.is_nan f then PyFloat value else PyFloat f
  | _ => x
  end.

(** [.map(mapping)] with a dictionary: a key that is absent gives [nan]. *)
Definition map_dict (mapping : gmap string Z) (x : pyval) : pyval :=
  match x with
  | PyStr s =>
      match mapping !! s with
      | Some code => PyInt code
      | None => PyFloat nan
      end
  | _ => PyFloat nan
  end.

(** *** The heap and the monad of frame programs *)

Definition ref : Type := nat.
Definition heap : Type := list DataFrame.

Definition M (A : Type) : Type := heap -> res A * heap.

Definition ret {A} (a : A) : M A := fun h => (Ok a, h).

Definition bind {A B} (m : M A) (k : A -> M B) : M B :=
  fun h =>
    match m h with
    | (Ok a, h') => k a h'
    | (Raise e, h') => (Raise e, h')
    end.

Definition raise {A} (e : pyexn) : M A := fun h => (Raise e, h).

Definition lift {A} (r : res A) : M A := fun h => (r, h).

Definition deref (r : ref) : M DataFrame :=
  fun h =>
    match h !! r with
    | Some df => (Ok df, h)
    | None => (Raise ReferenceError, h)
    end.

Definition alloc (df : DataFrame) : M ref :=
  fun h => (Ok (length h), h ++ [df]).

Definition store (r : ref) (df : DataFrame) : M unit :=
  fun h => (Ok tt, <[r := df]> h).

End pd.

Declare Scope py_scope.
Delimit Scope py_scope with py.
Notation "x <- c1 ;; c2" := (pd.bind c1 (fun x => c2))
  (at level 100, c1 at next level, right associativity) : py_scope.
Notation "c1 ;; c2" := (pd.bind c1 (fun _ => c2))
  (at level 100, right associativity) : py_scope.

Module pandas.
Import pd.
Local Open Scope py_scope.

(** [df.copy()]: a new frame object with the same cells. *)
Definition copy (df : ref) : M ref :=
  d <- deref df ;; alloc d.

(** [col in df.columns]. *)
Definition has_column (df : ref) (col : string) : M bool :=
  d <- deref df ;; ret (df_has col d).

(** [df[col]]. *)
Definition getitem (df : ref) (col : string) : M pyval :=
  d <- deref df ;;
  match df_get col d with
  | Some x => ret x
  | None => raise (KeyError col)
  end.

(** [df[col] = v]: mutates the frame object in place. *)
Definition setitem (df : ref) (col : string) (v : pyval) : M unit :=
  d <- deref df ;; store df (df_set col v d).

(** [df[cols]]: a new frame object. *)
Definition getitem_list (df : ref) (cols : list string) : M ref :=
  d <- deref df ;; out <- lift (df_select cols d) ;; alloc out.

(** [for x in xs: body]. *)
Fixpoint for_ {A} (xs : list A) (body : A -> M unit) : M unit :=
  match xs with
  | [] => ret tt
  | x :: rest => body x ;; for_ rest body
  end.

End pandas.

(** ** scikit-learn: [LabelEncoder] *)

Module sklearn.

Record LabelEncoder : Type := { classes_ : list string }.

(** Insertion into a sorted list without duplicates; strings are ordered
    by code point, as numpy orders them. *)
Fixpoint insert_unique (s : string) (l : list string) : list string :=
  match l with
  | [] => [s]
  | x :: rest =>
      match String.compare s x with
      | Lt => s :: x :: rest
      | Eq => x :: rest
      | Gt => x :: insert_unique s rest
      end
  end.

(** [np.unique]: the sorted distinct elements. *)
Definition np_unique (y : list string) : list string :=
  fold_right insert_unique [] y.

(** [le.fit(y)] stores [np.unique(y)] in [classes_]. *)
Definition fit (y : list string) : LabelEncoder :=
  {| classes_ := np_unique y |}.

Fixpoint index_of (s : string) (l : list string) : option Z :=
  match l with
  | [] => None
  | x :: rest =>
      if String.eqb x s then Some 0
      else option_map Z.succ (index_of s rest)
  end.

(** [le.transform] on one cell: the position of the label in [classes_];
    [ValueError] on a label the encoder has not seen. *)
Definition transform (le : LabelEncoder) (y : pyval) : res Z :=
  match y with
  | PyStr s =>
      match index_of s (classes_ le) with
      | Some code => Ok code
      | None => Raise ValueError
      end
  | _ => Raise ValueError
  end.

End sklearn.

(** ** [utils/preprocessor.py] *)

Module preprocessor.
Import pd pandas sklearn.

(** *** [preprocess_input], lines 4-84 *)

Definition expected_columns : list string :=
  [ "Substance";
    "Unit";
    "Supply Chain Emission Factors without Margins";
    "Margins of Supply Chain Emission Factors";
    "DQ ReliabilityScore of Factors without Margins";
    "DQ TemporalCorrelation of Factors without Margins";
    "DQ GeographicalCorrelation of Factors without Margins";
    "DQ TechnologicalCorrelation of Factors without Margins";
    "DQ DataCollection of Factors without Margins";
    "Source" ].

Definition categorical_columns : list string :=
  [ "Substance"; "Unit"; "Source" ].

Definition numeric_columns : list string :=
  [ "Supply Chain Emission Factors without Margins";
    "Margins of Supply Chain Emission Factors";
    "DQ ReliabilityScore of Factors without Margins";
    "DQ TemporalCorrelation of Factors without Margins";
    "DQ GeographicalCorrelation of Factors without Margins";
    "DQ TechnologicalCorrelation of Factors without Margins";
    "DQ DataCollection of Factors without Margins" ].

(** [col in ['Substance', 'Unit', 'Source']]. *)
Definition str_in (s : string) (l : list string) : bool :=
  existsb (String.eqb s) l.

(** [x in expected_categories] for a cell: a cell that is no string
    equals none of the labels. *)
Definition py_in (x : pyval) (l : list string) : bool :=
  match x with
  | PyStr s => str_in s l
  | _ => false
  end.

(** The [if]/[elif] chain of lines 48-55.  Its last arm,
    [df[col].unique().tolist()], is not embedded ([None]): [col] ranges
    over [categorical_columns], whose three labels the chain matches. *)
Definition expected_categories_of (col : string) : option (list string) :=
  if String.eqb col "Substance" then
    Some [ "carbon dioxide"; "methane"; "nitrous oxide"; "other GHGs" ]
  else if String.eqb col "Unit" then
    Some [ "kg/2018 USD, purchaser price"; "kg CO2e/2018 USD, purchaser price" ]
  else if String.eqb col "Source" then
    Some [ "Commodity"; "Industry" ]
  else None.

(** [lambda x: x if x in expected_categories else expected_categories[0]]. *)
Definition unseen_to_first (expected_categories : list string) (x : pyval)
    : res pyval :=
  if py_in x expected_categories then Ok x
  else
    match expected_categories with
    | first :: _ => Ok (PyStr first)
    | [] => Raise IndexError
    end.

Section Preprocess.
Context `{StrParsers}.
Local Open Scope py_scope.

(** Lines 32-38. *)
Definition ensure_column (df : ref) (col : string) : M unit :=
  present <- has_column df col ;;
  if negb present then
    if str_in col [ "Substance"; "Unit"; "Source" ]
    then setitem df col (PyStr "Unknown")
    else setitem df col (PyFloat 0%float)
  else ret tt.

(** Lines 44-64; the dictionary [label_encoders] is written and never
    read, and is left out. *)
Definition encode_column (df : ref) (col : string) : M unit :=
  present <- has_column df col ;;
  if present then
    match expected_categories_of col with
    | None => raise NotEmbedded
    | Some expected_categories =>
        let le := fit expected_categories in
        x <- getitem df col ;;
        x' <- lift (unseen_to_first expected_categories x) ;;
        setitem df col x' ;;
        y <- getitem df col ;;
        code <- lift (transform le y) ;;
        setitem df col (PyInt code)
    end
  else ret tt.

(** Lines 77-79. *)
Definition coerce_column (df : ref) (col : string) : M unit :=
  present <- has_column df col ;;
  if present then
    x <- getitem df col ;;
    y <- lift (to_numeric_coerce x) ;;
    setitem df col (fillna 0%float y)
  else ret tt.

Definition preprocess_input (input_df : ref) : M ref :=
  df <- copy input_df ;;
  for_ expected_columns (ensure_column df) ;;
  for_ categorical_columns (encode_column df) ;;
  for_ numeric_columns (coerce_column df) ;;
  df <- getitem_list df expected_columns ;;
  ret df.
End Preprocess.

(** *** [validate_input_data], lines 105-165 *)

(** What [validate_input_data] returns: the pair [(is_valid, message)]. *)
Definition verdict : Type := bool * string.

Definition required_fields : list string :=
  [ "Substance";
    "Unit";
    "Supply Chain Emission Factors without Margins";
    "Margins of Supply Chain Emission Factors";
    "Source" ].

Definition numeric_fields : list string :=
  [ "Supply Chain Emission Factors without Margins";
    "Margins of Supply Chain Emission Factors" ].

Definition dq_fields : list string :=
  [ "DQ ReliabilityScore of Factors without Margins";
    "DQ TemporalCorrelation of Factors without Margins";
    "DQ GeographicalCorrelation of Factors without Margins";
    "DQ TechnologicalCorrelation of Factors without Margins";
    "DQ DataCollection of Factors without Margins" ].

(** A [for field in fields:] loop whose body may [return] a verdict
    ([Ok (Some r)]), fall through to the next field ([Ok None]) or let an
    exception escape. *)
Fixpoint for_fields (fields : list string)
    (body : string -> res (option verdict)) : res (option verdict) :=
  match fields with
  | [] => Ok None
  | field :: rest =>
      match body field with
      | Ok None => for_fields rest body
      | r => r
      end
  end.

Section Validate.
Context `{StrParsers}.

(** Lines 125-130. *)
Definition required_body (input_data : dict) (field : string)
    : res (option verdict) :=
  match input_data !! field with
  | None => Ok (Some (false, "Missing required field: " +:+ field))
  | Some PyNone => Ok (Some (false, "Field cannot be None: " +:+ field))
  | Some _ => Ok None
  end.

(** Lines 138-145: only [ValueError] and [TypeError] are caught. *)
Definition numeric_body (input_data : dict) (field : string)
    : res (option verdict) :=
  match input_data !! field with
  | None => Ok None
  | Some x =>
      match py_float x with
      | Ok val =>
          if PrimFloat.ltb val 0%float
          then Ok (Some (false, "Field must be non-negative: " +:+ field))
          else Ok None
      | Raise ValueError | Raise TypeError =>
          Ok (Some (false, "Field must be numeric: " +:+ field))
      | Raise e => Raise e
      end
  end.

(** Lines 156-163. *)
Definition dq_body (input_data : dict) (field : string)
    : res (option verdict) :=
  match input_data !! field with
  | None => Ok None
  | Some x =>
      match py_float x with
      | Ok val =>
          if negb (PrimFloat.leb 0%float val && PrimFloat.leb val 1%float)
          then Ok (Some (false, "DQ field must be between 0 and 1: " +:+ field))
          else Ok None
      | Raise ValueError | Raise TypeError =>
          Ok (Some (false, "DQ field must be numeric: " +:+ field))
      | Raise e => Raise e
      end
  end.

Definition validate_input_data (input_data : dict) : res verdict :=
  match for_fields required_fields (required_body input_data) with
  | Ok None =>
      match for_fields numeric_fields (numeric_body input_data) with
      | Ok None =>
          match for_fields dq_fields (dq_body input_data) with
          | Ok None => Ok (true, "Valid")
          | Ok (Some r) => Ok r
          | Raise e => Raise e
          end
      | Ok (Some r) => Ok r
      | Raise e => Raise e
      end
  | Ok (Some r) => Ok r
  | Raise e => Raise e
  end.
End Validate.

(** *** [get_feature_importance_info], lines 167-198 *)

Record feature_info : Type := {
  most_important : list string;
  categorical_features : list string;
  quality_features : list string;
  tips : list (string * string)
}.

Definition get_feature_importance_info : feature_info :=
  {| most_important :=
       [ "Supply Chain Emission Factors without Margins";
         "Margins of Supply Chain Emission Factors";
         "DQ ReliabilityScore of Factors without Margins" ];
     categorical_features := [ "Substance"; "Unit"; "Source" ];
     quality_features :=
       [ "DQ ReliabilityScore of Factors without Margins";
         "DQ TemporalCorrelation of Factors without Margins";
         "DQ GeographicalCorrelation of Factors without Margins";
         "DQ TechnologicalCorrelation of Factors without Margins";
         "DQ DataCollection of Factors without Margins" ];
     tips :=
       [ ("substance", "Carbon dioxide typically has different emission factors than methane or nitrous oxide");
         ("unit", "CO2e units include all greenhouse gases converted to CO2 equivalent");
         ("reliability", "Higher reliability scores lead to more confident predictions");
         ("margins", "Safety margins should typically be 5-20% of base emission factors") ] |}.

End preprocessor.

(** ** [simple_test.py]: the explicit-dictionary [preprocess_input] *)

Module simple_test.
Import pd pandas.
Local Open Scope py_scope.

Definition substance_map : gmap string Z :=
  <["carbon dioxide" := 0]> (<["methane" := 1]>
    (<["nitrous oxide" := 2]> (<["other GHGs" := 3]> ∅))).

Definition unit_map : gmap string Z :=
  <["kg/2018 USD, purchaser price" := 0]>
    (<["kg CO2e/2018 USD, purchaser price" := 1]> ∅).

Definition source_map : gmap string Z :=
  <["Commodity" := 0]> (<["Industry" := 1]> ∅).

Definition expected_columns : list string :=
  [ "Substance";
    "Unit";
    "Supply Chain Emission Factors without Margins";
    "Margins of Supply Chain Emission Factors";
    "DQ ReliabilityScore of Factors without Margins";
    "DQ TemporalCorrelation of Factors without Margins";
    "DQ GeographicalCorrelation of Factors without Margins";
    "DQ TechnologicalCorrelation of Factors without Margins";
    "DQ DataCollection of Factors without Margins";
    "Source" ].

(** [df[col] = df[col].map(mapping)]. *)
Definition map_column (df : ref) (col : string) (mapping : gmap string Z)
    : M unit :=
  x <- getitem df col ;; setitem df col (map_dict mapping x).

Definition preprocess_input (input_df : ref) : M ref :=
  df <- copy input_df ;;
  map_column df "Substance" substance_map ;;
  map_column df "Unit" unit_map ;;
  map_column df "Source" source_map ;;
  getitem_list df expected_columns.

(** Lines 43-54. *)
Definition input_data : dict :=
  <["Substance" := PyStr "carbon dioxide"]>
  (<["Unit" := PyStr "kg/2018 USD, purchaser price"]>
  (<["Supply Chain Emission Factors without Margins" := PyFloat 0.1]>
  (<["Margins of Supply Chain Emission Factors" := PyFloat 0.01]>
  (<["DQ ReliabilityScore of Factors without Margins" := PyFloat 0.5]>
  (<["DQ TemporalCorrelation of Factors without Margins" := PyFloat 0.5]>
  (<["DQ GeographicalCorrelation of Factors without Margins" := PyFloat 0.5]>
  (<["DQ TechnologicalCorrelation of Factors without Margins" := PyFloat 0.5]>
  (<["DQ DataCollection of Factors without Margins" := PyFloat 0.5]>
  (<["Source" := PyStr "Industry"]> ∅))))))))).

End simple_test.

(** ** [app.py]: the impact label, lines 1164-1170 *)

Module app.

Definition impact_level (prediction_value : float) : string :=
  if PrimFloat.ltb 0.1%float prediction_value then "High"
  else if PrimFloat.ltb 0.05%float prediction_value then "Medium"
  else "Low".

(** The record built from the form, lines 1124-1135. *)
Definition input_data (substance unit : string)
    (supply_wo_margin margin : float)
    (dq_reliability dq_temporal dq_geo dq_tech dq_data : float)
    (source : string) : dict :=
  <["Substance" := PyStr substance]>
  (<["Unit" := PyStr unit]>
  (<["Supply Chain Emission Factors without Margins" := PyFloat supply_wo_margin]>
  (<["Margins of Supply Chain Emission Factors" := PyFloat margin]>
  (<["DQ ReliabilityScore of Factors without Margins" := PyFloat dq_reliability]>
  (<["DQ TemporalCorrelation of Factors without Margins" := PyFloat dq_temporal]>
  (<["DQ GeographicalCorrelation of Factors without Margins" := PyFloat dq_geo]>
  (<["DQ TechnologicalCorrelation of Factors without Margins" := PyFloat dq_tech]>
  (<["DQ DataCollection of Factors without Margins" := PyFloat dq_data]>
  (<["Source" := PyStr source]> ∅))))))))).

(** Line 1038. *)
Definition quality_status (overall_quality : float) : string :=
  if PrimFloat.leb 0.8%float overall_quality then "Excellent"
  else if PrimFloat.leb 0.6%float overall_quality then "Good"
  else if PrimFloat.leb 0.4%float overall_quality then "Fair"
  else "Poor".

(** Lines 1247-1271: three recommendations chosen by the impact label, and
    one more when the overall quality is below 0.6. *)
Definition recommendations (impact_level : string) (overall_quality : float)
    : list string :=
  (if String.eqb impact_level "High" then
     [ "🔄 Consider switching to cleaner alternatives";
       "🌱 Explore renewable energy sources";
       "📉 Implement carbon reduction technologies" ]
   else if String.eqb impact_level "Medium" then
     [ "⚡ Optimize supply chain processes";
       "🎯 Set emission reduction targets";
       "📊 Monitor performance regularly" ]
   else
     [ "✨ Maintain current sustainable practices";
       "🤝 Share best practices with others";
       "🔄 Continue monitoring and improvement" ])
  ++
  (if PrimFloat.ltb overall_quality 0.6%float
   then [ "📈 Improve data collection methods for better accuracy" ]
   else []).

End app.

(** ** Running a frame program on a record *)

(** [preprocess_input(pd.DataFrame([input_data])).iloc[0].values]: the
    program runs on a heap that holds the caller's frame and nothing else;
    the result is the row of the frame it returns. *)
Definition run_on (prog : pd.ref -> pd.M pd.ref) (input_df : pd.DataFrame)
    : res (list pyval) :=
  match prog 0%nat [input_df] with
  | (Ok out, h) =>
      match h !! out with
      | Some df => Ok (pd.values df)
      | None => Raise ReferenceError
      end
  | (Raise e, _) => Raise e
  end.

(** A reader for the strings used in the examples. *)
Definition example_float_of_str (s : string) : option float :=
  if String.eqb s "nan" then Some nan
  else if String.eqb s "0.5" then Some 0.5%float
  else if String.eqb s "1" then Some 1%float
  else if String.eqb s "-1" then Some (-1)%float
  else None.

Definition example_to_numeric_str (s : string) : option number :=
  if String.eqb s "nan" then Some (NFloat nan)
  else if String.eqb s "0.5" then Some (NFloat 0.5%float)
  else if String.eqb s "1" then Some (NInt 1)
  else if String.eqb s "-1" then Some (NInt (-1))
  else None.

Definition example_parsers : StrParsers :=
  {| float_of_str := example_float_of_str;
     to_numeric_str := example_to_numeric_str;
     to_numeric_str_fits :=
       ltac:(intros s z; unfold example_to_numeric_str;
             repeat destruct (String.eqb s _);
             intros Hz; inversion Hz; lia) |}.


(** The frame a frame program returns for a caller's frame. *)
Definition run_frame (prog : pd.ref -> pd.M pd.ref) (input_df : pd.DataFrame)
    : res pd.DataFrame :=
  match prog 0%nat [input_df] with
  | (Ok out, h) =>
      match h !! out with
      | Some df => Ok df
      | None => Raise ReferenceError
      end
  | (Raise e, _) => Raise e
  end.

(** ** [app.py]: one submission, lines 1137-1170

    The scaler and the model are loaded artifacts; [scale_predict] stands
    for [model.predict(scaler.transform(input_df))[0]].  [st.stop()] ends
    the run after the validation message; any exception of the [try] block
    becomes the "Prediction Error" message. *)

Module app_submit.

Inductive outcome : Type :=
  | ValidationError (error_msg : string)
  | PredictionResult (prediction_value : float) (impact_level : string)
  | PredictionError (e : pyexn).

Definition submit `{StrParsers} (scale_predict : pd.DataFrame -> res float)
    (input_data : dict) : outcome :=
  match preprocessor.validate_input_data input_data with
  | Raise e => PredictionError e
  | Ok (false, error_msg) => ValidationError error_msg
  | Ok (true, _) =>
      match run_frame preprocessor.preprocess_input (pd.of_record input_data) with
      | Raise e => PredictionError e
      | Ok input_df =>
          match scale_predict input_df with
          | Raise e => PredictionError e
          | Ok prediction_value =>
              PredictionResult prediction_value (app.impact_level prediction_value)
          end
      end
  end.

End app_submit.


(** The labels of [app.py] in increasing order of the value they stand
    for. *)
Definition impact_rank (impact_level : string) : nat :=
  if String.eqb impact_level "High" then 2
  else if String.eqb impact_level "Medium" then 1
  else 0.

Definition quality_rank (quality_status : string) : nat :=
  if String.eqb quality_status "Excellent" then 3
  else if String.eqb quality_status "Good" then 2
  else if String.eqb quality_status "Fair" then 1
  else 0.

(** ** What the loops of [preprocessor.preprocess_input] do to one column

    Closed forms of the three loop bodies, used to state what a run leaves
    in the frame. *)

Module columnwise.
Import pd sklearn preprocessor.

(** Lines 35-38: the value a missing column is created with. *)
Definition default_value (col : string) : pyval :=
  if str_in col [ "Substance"; "Unit"; "Source" ]
  then PyStr "Unknown" else PyFloat 0%float.

Definition ensure (col : string) (d : DataFrame) : DataFrame :=
  if df_has col d then d else df_set col (default_value col) d.

Definition cell_or_default (col : string) (o : option pyval) : pyval :=
  match o with
  | Some x => x
  | None => default_value col
  end.

(** Lines 46-62 on the cell of column [col]: fit on the expected
    categories, replace an unseen value, transform. *)
Definition encode (col : string) (x : pyval) : res Z :=
  match expected_categories_of col with
  | None => Raise NotEmbedded
  | Some expected_categories =>
      res_bind (unseen_to_first expected_categories x)
               (transform (fit expected_categories))
  end.

Definition code_of (col : string) (x : pyval) : Z :=
  match encode col x with
  | Ok code => code
  | Raise _ => 0
  end.

(** Whether [to_numeric] returns on the cell. *)
Definition converts `{StrParsers} (x : pyval) : bool :=
  match to_numeric_coerce x with
  | Ok _ => true
  | Raise _ => false
  end.

(** Line 79 on one cell, when [to_numeric] returns on it (the cell is left
    as it is when it raises). *)
Definition coerce `{StrParsers} (x : pyval) : pyval :=
  match to_numeric_coerce x with
  | Ok y => fillna 0%float y
  | Raise _ => x
  end.

(** [to_numeric] returns on the cell of column [col], if there is one. *)
Definition cell_converts `{StrParsers} (d : DataFrame) (col : string) : bool :=
  match df_get col d with
  | Some x => converts x
  | None => true
  end.

(** [to_numeric] returns on every numeric cell of the frame. *)
Definition numeric_cells_convert `{StrParsers} (d : DataFrame) : bool :=
  forallb (cell_converts d) numeric_columns.

Definition coerce_col `{StrParsers} (col : string) (d : DataFrame) : DataFrame :=
  match df_get col d with
  | Some x => df_set col (coerce x) d
  | None => d
  end.

(** The cell a run leaves in column [col], from the cell [o] the caller's
    frame has there. *)
Definition final_cell `{StrParsers} (col : string) (o : option pyval) : pyval :=
  let x := cell_or_default col o in
  if str_in col categorical_columns then PyInt (code_of col x) else coerce x.

Definition output_frame `{StrParsers} (d : DataFrame) : DataFrame :=
  map (fun col => (col, final_cell col (df_get col d))) expected_columns.

End columnwise.

(** ** Vocabulary for statements about [validate_input_data] *)

Section Vocabulary.
Context `{StrParsers}.

(** The key is present and its value is not [None]. *)
Definition has_value (input_data : dict) (field : string) : bool :=
  match input_data !! field with
  | Some PyNone | None => false
  | Some _ => true
  end.

(** [float(v)] succeeds and the number is at least zero. *)
Definition parses_nonneg (v : pyval) : bool :=
  match py_float v with
  | Ok x => PrimFloat.leb 0%float x
  | Raise _ => false
  end.

(** [float(v)] succeeds and the result is not below zero. *)
Definition parses_not_below_zero (v : pyval) : bool :=
  match py_float v with
  | Ok x => negb (PrimFloat.ltb x 0%float)
  | Raise _ => false
  end.

(** [float(v)] succeeds and the number lies in [[0.0, 1.0]]. *)
Definition parses_in_unit (v : pyval) : bool :=
  match py_float v with
  | Ok x => PrimFloat.leb 0%float x && PrimFloat.leb x 1%float
  | Raise _ => false
  end.

(** A condition on the value of a key that may be absent. *)
Definition when_present (input_data : dict) (cond : pyval -> bool)
    (field : string) : bool :=
  match input_data !! field with
  | Some v => cond v
  | None => true
  end.
End Vocabulary.

(** The six messages of [validate_input_data], without the field name. *)
Definition violation_prefixes : list string :=
  [ "Missing required field: ";
    "Field cannot be None: ";
    "Field must be non-negative: ";
    "Field must be numeric: ";
    "DQ field must be between 0 and 1: ";
    "DQ field must be numeric: " ].

(** ** Vocabulary for statements about [preprocess_input] *)

(** The cell at position [i] of the vector computed for the record of
    [simple_test.py] with the value of [col] replaced by [x]. *)
Definition cell_of_run `{StrParsers} (col : string) (x : pyval) (i : nat)
    : option pyval :=
  match run_on preprocessor.preprocess_input
          (pd.of_record (<[col := x]> simple_test.input_data)) with
  | Ok row => row !! i
  | Raise _ => None
  end.

(** Positions 2 to 8 of a feature vector: the seven numeric fields. *)
Definition numeric_cells (row : list pyval) : list pyval :=
  take 7 (drop 2 row).

(** A cell that already is a number as a frame stores it: a float other
    than [nan], or an integer that fits [int64] or [uint64]. *)
Definition plain_number (x : pyval) : bool :=
  match x with
  | PyFloat f => negb (PrimFloat.is_nan f)
  | PyInt z => pd.fits_int64_or_uint64 z
  | _ => false
  end.

(** The vocabularies of the three categorical fields, as the spec lists
    them. *)
Definition substance_vocabulary : list string :=
  [ "carbon dioxide"; "methane"; "nitrous oxide"; "other GHGs" ].
Definition unit_vocabulary : list string :=
  [ "kg/2018 USD, purchaser price"; "kg CO2e/2018 USD, purchaser price" ].
Definition source_vocabulary : list string :=
  [ "Commodity"; "Industry" ].

(** * Properties *)

(** ** Frames *)

Section FrameFacts.
Import pd.

Lemma df_get_set (c c' : string) (v : pyval) (d : DataFrame) :
  df_get c (df_set c' v d) = if String.eqb c' c then Some v else df_get c d.
Proof.
  induction d as [|[c0 x] rest IH]; simpl.
  - reflexivity.
  - destruct (String.eqb_spec c0 c') as [->|Hne]; simpl.
    + destruct (String.eqb c' c); reflexivity.
    + rewrite IH.
      destruct (String.eqb_spec c0 c) as [->|Hne'].
      * destruct (String.eqb_spec c' c) as [->|_]; [congruence|reflexivity].
      * reflexivity.
Qed.


(** A record becomes a frame with one column per key. *)
Lemma df_get_assoc (c : string) (l : list (string * pyval)) (x : pyval) :
  NoDup l.*1 -> (c, x) ∈ l -> df_get c l = Some x.
Proof.
  induction l as [|[c0 x0] rest IH]; simpl; intros Hnd Hin.
  - inversion Hin.
  - apply NoDup_cons in Hnd as [Hnotin Hnd].
    apply elem_of_cons in Hin as [Heq|Hin].
    + inversion Heq; subst. rewrite String.eqb_refl. reflexivity.
    + destruct (String.eqb_spec c0 c) as [->|_].
      * exfalso. apply Hnotin. apply list_elem_of_fmap.
        exists (c, x). split; [reflexivity|assumption].
      * apply IH; assumption.
Qed.

Lemma df_get_none (c : string) (l : list (string * pyval)) :
  c ∉ l.*1 -> df_get c l = None.
Proof.
  induction l as [|[c0 x0] rest IH]; simpl; intros Hnotin.
  - reflexivity.
  - apply not_elem_of_cons in Hnotin as [Hne Hnotin].
    destruct (String.eqb_spec c0 c) as [->|_]; [congruence|].
    apply IH; assumption.
Qed.

Lemma df_get_of_record (input_data : dict) (c : string) :
  df_get c (of_record input_data) = input_data !! c.
Proof.
  unfold of_record.
  destruct (input_data !! c) as [x|] eqn:Hl.
  - apply df_get_assoc.
    + apply NoDup_fst_map_to_list.
    + apply elem_of_map_to_list. assumption.
  - apply df_get_none. intros Hin.
    apply list_elem_of_fmap in Hin as [[c' x] [Heq Hin]].
    simpl in Heq; subst c'.
    apply elem_of_map_to_list in Hin. congruence.
Qed.

Lemma df_select_columns (cols : list string) (d out : DataFrame) :
  df_select cols d = Ok out -> columns out = cols.
Proof.
  unfold df_select. destruct (missing_labels cols d) eqn:Hmiss; [|discriminate].
  intros Hsel. inversion Hsel; subst out. clear Hsel.
  induction cols as [|c rest IH]; simpl; [reflexivity|].
  unfold missing_labels in Hmiss. simpl in Hmiss. unfold df_has in Hmiss.
  destruct (df_get c d) as [x|]; simpl in Hmiss; [|discriminate].
  simpl. f_equal. apply IH. exact Hmiss.
Qed.

(** When every label is a column, [df[cols]] returns the columns in the
    order of [cols]. *)
Lemma df_select_present (cols : list string) (d : DataFrame)
    (cell : string -> pyval) :
  (forall c, In c cols -> df_get c d = Some (cell c)) ->
  df_select cols d = Ok (map (fun c => (c, cell c)) cols).
Proof.
  intros Hget. unfold df_select.
  assert (missing_labels cols d = [] /\
          df_take cols d = map (fun c => (c, cell c)) cols) as [-> ->];
    [|reflexivity].
  induction cols as [|c rest IH]; simpl; [split; reflexivity|].
  destruct IH as [IHm IHt]; [intros c' Hc'; apply Hget; right; assumption|].
  unfold missing_labels in *. simpl. unfold df_has.
  rewrite (Hget c) by (left; reflexivity). simpl.
  rewrite IHt. split; [assumption|reflexivity].
Qed.

End FrameFacts.

(** ** Frame programs on the newest object of the heap *)

Section HeapFacts.
Import pd pandas.

Lemma lookup_last (h : heap) (d : DataFrame) :
  (h ++ [d]) !! length h = Some d.
Proof. apply list_lookup_middle. reflexivity. Qed.

Lemma insert_last (h : heap) (d d' : DataFrame) :
  <[length h := d']> (h ++ [d]) = h ++ [d'].
Proof.
  rewrite insert_app_r_alt by lia.
  replace (length h - length h)%nat with 0%nat by lia. reflexivity.
Qed.

Lemma run_copy (h : heap) (r : ref) (d : DataFrame) :
  h !! r = Some d -> copy r h = (Ok (length h), h ++ [d]).
Proof. intros Hr. unfold copy, bind, deref, alloc. rewrite Hr. reflexivity. Qed.

Lemma run_has_column (h : heap) (d : DataFrame) (col : string) :
  has_column (length h) col (h ++ [d]) = (Ok (df_has col d), h ++ [d]).
Proof. unfold has_column, bind, deref, ret. rewrite lookup_last. reflexivity. Qed.

Lemma run_getitem (h : heap) (d : DataFrame) (col : string) :
  getitem (length h) col (h ++ [d]) =
  (match df_get col d with Some x => Ok x | None => Raise (KeyError col) end,
   h ++ [d]).
Proof.
  unfold getitem, bind, deref. rewrite lookup_last.
  destruct (df_get col d); reflexivity.
Qed.

Lemma run_setitem (h : heap) (d : DataFrame) (col : string) (v : pyval) :
  setitem (length h) col v (h ++ [d]) = (Ok tt, h ++ [df_set col v d]).
Proof.
  unfold setitem, bind, deref, store. rewrite lookup_last, insert_last.
  reflexivity.
Qed.

Lemma run_getitem_list (h : heap) (d : DataFrame) (cols : list string) :
  getitem_list (length h) cols (h ++ [d]) =
  match df_select cols d with
  | Ok out => (Ok (S (length h)), h ++ [d; out])
  | Raise e => (Raise e, h ++ [d])
  end.
Proof.
  unfold getitem_list, bind, deref, lift, alloc. rewrite lookup_last.
  destruct (df_select cols d) as [out|e]; [|reflexivity].
  rewrite length_app, <- app_assoc. simpl.
  replace (length h + 1)%nat with (S (length h)) by lia. reflexivity.
Qed.

End HeapFacts.

(** ** One iteration of each loop of [preprocessor.preprocess_input] *)

Section LoopFacts.
Import pd pandas sklearn preprocessor columnwise.
Context `{StrParsers}.

Lemma df_set_set (c : string) (v v' : pyval) (d : DataFrame) :
  df_set c v (df_set c v' d) = df_set c v d.
Proof.
  induction d as [|[c0 x] rest IH]; simpl.
  - rewrite String.eqb_refl. reflexivity.
  - destruct (String.eqb c0 c) eqn:E; simpl; rewrite E.
    + reflexivity.
    + rewrite IH. reflexivity.
Qed.

Lemma df_get_ensure (c c' : string) (d : DataFrame) :
  df_get c (ensure c' d) =
  if String.eqb c' c then Some (cell_or_default c (df_get c d)) else df_get c d.
Proof.
  unfold ensure, df_has.
  destruct (String.eqb_spec c' c) as [->|Hne].
  - destruct (df_get c d) eqn:E; simpl.
    + assumption.
    + rewrite df_get_set, String.eqb_refl. reflexivity.
  - destruct (df_get c' d); [reflexivity|].
    rewrite df_get_set.
    destruct (String.eqb_spec c' c); [congruence|reflexivity].
Qed.

Lemma run_ensure_column (h : heap) (d : DataFrame) (col : string) :
  ensure_column (length h) col (h ++ [d]) = (Ok tt, h ++ [ensure col d]).
Proof.
  unfold ensure_column, bind, ensure, default_value.
  rewrite run_has_column.
  set (b := str_in col ["Substance"; "Unit"; "Source"]).
  destruct (df_has col d); simpl; [reflexivity|].
  destruct b; apply run_setitem.
Qed.

Lemma run_encode_column (h : heap) (d : DataFrame) (col : string)
    (x : pyval) (code : Z) :
  df_get col d = Some x ->
  encode col x = Ok code ->
  encode_column (length h) col (h ++ [d]) =
  (Ok tt, h ++ [df_set col (PyInt code) d]).
Proof.
  intros Hget Henc. unfold encode in Henc.
  unfold encode_column, bind.
  rewrite run_has_column. unfold df_has. rewrite Hget.
  destruct (expected_categories_of col) as [cats|]; [|discriminate].
  rewrite run_getitem, Hget. unfold lift.
  destruct (unseen_to_first cats x) as [x'|e]; simpl in Henc; [|discriminate].
  rewrite run_setitem, run_getitem, df_get_set, String.eqb_refl.
  rewrite Henc, run_setitem, df_set_set. reflexivity.
Qed.

Lemma run_coerce_column_cases (h : heap) (d : DataFrame) (col : string) :
  coerce_column (length h) col (h ++ [d]) =
  match df_get col d with
  | None => (Ok tt, h ++ [d])
  | Some x =>
      match to_numeric_coerce x with
      | Ok y => (Ok tt, h ++ [df_set col (fillna 0%float y) d])
      | Raise e => (Raise e, h ++ [d])
      end
  end.
Proof.
  unfold coerce_column, bind.
  rewrite run_has_column. unfold df_has.
  destruct (df_get col d) as [x|] eqn:Hget; [|reflexivity].
  rewrite run_getitem, Hget. unfold lift.
  destruct (to_numeric_coerce x) as [y|e]; [apply run_setitem|reflexivity].
Qed.

(** [to_numeric] raises nothing but [OverflowError]. *)
Lemma to_numeric_raises (x : pyval) (e : pyexn) :
  to_numeric_coerce x = Raise e -> e = OverflowError.
Proof.
  destruct x as [|s|f|z]; simpl; try discriminate.
  - destruct (to_numeric_str s); discriminate.
  - destruct (fits_int64_or_uint64 z); [discriminate|].
    destruct (is_inf (float_of_Z z)); [|discriminate].
    intros Heq. inversion Heq. reflexivity.
Qed.

(** On its three columns the encoder never raises. *)
Lemma str_in_cases (s : string) (l : list string) :
  str_in s l = true -> In s l.
Proof.
  unfold str_in. intros Hex. apply existsb_exists in Hex as [y [Hin Heq]].
  apply String.eqb_eq in Heq. subst. assumption.
Qed.

Lemma encode_total (col : string) (x : pyval) :
  str_in col categorical_columns = true -> encode col x = Ok (code_of col x).
Proof.
  intros Hcol. unfold code_of.
  assert (exists code, encode col x = Ok code) as [code ->]; [|reflexivity].
  apply str_in_cases in Hcol. simpl in Hcol.
  unfold encode, unseen_to_first.
  destruct Hcol as [<-|[<-|[<-|[]]]];
    match goal with |- context [expected_categories_of ?c] =>
      let cats := eval vm_compute in (expected_categories_of c) in
      change (expected_categories_of c) with cats; cbv beta iota end;
    match goal with |- context [py_in x ?cats] =>
      destruct (py_in x cats) eqn:Hin end;
    try (eexists; vm_compute; reflexivity);
    destruct x as [|s| |]; try discriminate Hin;
    apply str_in_cases in Hin; simpl in Hin;
    repeat (destruct Hin as [<-|Hin]; [eexists; vm_compute; reflexivity|]);
    destruct Hin.
Qed.

End LoopFacts.

(** ** A whole run of [preprocessor.preprocess_input] *)

(** Evaluates the comparisons of two string literals in the goal. *)
Ltac eval_eqb :=
  repeat match goal with
  | |- context [String.eqb ?a ?b] =>
      let v := eval vm_compute in (String.eqb a b) in
      lazymatch v with
      | true => change (String.eqb a b) with true
      | false => change (String.eqb a b) with false
      end
  | |- context [preprocessor.str_in ?a ?l] =>
      let v := eval vm_compute in (preprocessor.str_in a l) in
      lazymatch v with
      | true => change (preprocessor.str_in a l) with true
      | false => change (preprocessor.str_in a l) with false
      end
  end; cbv beta iota.

Section RunFacts.
Import pd pandas sklearn preprocessor columnwise.
Context `{StrParsers}.

Lemma bind_run {A B} (m : M A) (k : A -> M B) (h h' : heap) (a : A) :
  m h = (Ok a, h') -> bind m k h = k a h'.
Proof. intros Hm. unfold bind. rewrite Hm. reflexivity. Qed.

Lemma bind_raise {A B} (m : M A) (k : A -> M B) (h h' : heap) (e : pyexn) :
  m h = (Raise e, h') -> bind m k h = (Raise e, h').
Proof. intros Hm. unfold bind. rewrite Hm. reflexivity. Qed.

Lemma run_for_ (body : ref -> string -> M unit)
    (f : string -> DataFrame -> DataFrame) (cols : list string) :
  (forall h d c, body (length h) c (h ++ [d]) = (Ok tt, h ++ [f c d])) ->
  forall h d,
    for_ cols (body (length h)) (h ++ [d]) =
    (Ok tt, h ++ [fold_left (fun acc c => f c acc) cols d]).
Proof.
  intros Hbody. induction cols as [|c rest IH]; intros h d; simpl.
  - reflexivity.
  - erewrite bind_run by apply Hbody. apply IH.
Qed.

Lemma df_get_coerce_col (c c' : string) (d : DataFrame) :
  df_get c (coerce_col c' d) =
  if String.eqb c' c then option_map coerce (df_get c d) else df_get c d.
Proof.
  unfold coerce_col.
  destruct (String.eqb_spec c' c) as [->|Hne].
  - destruct (df_get c d) eqn:E; simpl.
    + rewrite df_get_set, String.eqb_refl. reflexivity.
    + assumption.
  - destruct (df_get c' d); [|reflexivity].
    rewrite df_get_set.
    destruct (String.eqb_spec c' c); [congruence|reflexivity].
Qed.

Lemma df_get_coerce_all (c : string) (cols : list string) (d : DataFrame) :
  NoDup cols ->
  df_get c (fold_left (fun acc c' => coerce_col c' acc) cols d) =
  if str_in c cols then option_map coerce (df_get c d) else df_get c d.
Proof.
  intros Hnd. revert d.
  induction Hnd as [|c' rest Hnotin Hnd IH]; intros d; simpl.
  - reflexivity.
  - rewrite IH, df_get_coerce_col. fold (str_in c rest).
    rewrite (String.eqb_sym c c').
    destruct (String.eqb_spec c' c) as [->|Hne]; simpl; [|reflexivity].
    destruct (str_in c rest) eqn:Hin; [|reflexivity].
    exfalso. apply Hnotin. apply list_elem_of_In.
    apply str_in_cases. assumption.
Qed.

Lemma NoDup_numeric_columns : NoDup numeric_columns.
Proof.
  unfold numeric_columns.
  repeat (apply NoDup_cons; split;
    [rewrite list_elem_of_In; simpl; intros Hin;
     repeat (destruct Hin as [Hin|Hin]; [discriminate Hin|]); exact Hin|]).
  apply NoDup_nil. exact I.
Qed.

(** After the first loop every expected column exists. *)
Lemma df_get_ensure_all (c : string) (cols : list string) (d : DataFrame) :
  df_get c (fold_left (fun acc c' => ensure c' acc) cols d) =
  if str_in c cols then Some (cell_or_default c (df_get c d)) else df_get c d.
Proof.
  revert d. induction cols as [|c' rest IH]; intros d; simpl.
  - reflexivity.
  - rewrite IH, df_get_ensure. fold (str_in c rest).
    rewrite (String.eqb_sym c c').
    destruct (String.eqb c' c); simpl; destruct (str_in c rest); reflexivity.
Qed.

Lemma run_encode_loop (h : heap) (d : DataFrame) (xs xu xo : pyval) :
  df_get "Substance" d = Some xs ->
  df_get "Unit" d = Some xu ->
  df_get "Source" d = Some xo ->
  for_ categorical_columns (encode_column (length h)) (h ++ [d]) =
  (Ok tt,
   h ++ [df_set "Source" (PyInt (code_of "Source" xo))
          (df_set "Unit" (PyInt (code_of "Unit" xu))
            (df_set "Substance" (PyInt (code_of "Substance" xs)) d))]).
Proof.
  intros Hs Hu Ho. unfold categorical_columns. cbn [for_].
  erewrite bind_run;
    [|eapply run_encode_column; [exact Hs|apply encode_total; reflexivity]].
  erewrite bind_run;
    [|eapply run_encode_column;
      [rewrite df_get_set; eval_eqb; exact Hu|apply encode_total; reflexivity]].
  erewrite bind_run;
    [|eapply run_encode_column;
      [rewrite !df_get_set; eval_eqb; exact Ho|apply encode_total; reflexivity]].
  reflexivity.
Qed.

Lemma forallb_ext_in {A} (f g : A -> bool) (l : list A) :
  (forall a, In a l -> f a = g a) -> forallb f l = forallb g l.
Proof.
  induction l as [|a l IH]; simpl; intros Hext; [reflexivity|].
  rewrite (Hext a) by (left; reflexivity).
  rewrite IH by (intros b Hb; apply Hext; right; assumption).
  reflexivity.
Qed.

(** The third loop: it returns when [to_numeric] returns on every cell it
    meets, and lets the [OverflowError] of the first other cell escape. *)
Lemma run_coerce_loop (cols : list string) :
  NoDup cols ->
  forall (h : heap) (d : DataFrame),
  exists d',
    for_ cols (coerce_column (length h)) (h ++ [d]) =
    (if forallb (cell_converts d) cols then Ok tt else Raise OverflowError,
     h ++ [d']) /\
    (forallb (cell_converts d) cols = true ->
     d' = fold_left (fun acc c => coerce_col c acc) cols d).
Proof.
  induction 1 as [|c rest Hnotin Hnd IH]; intros h d.
  - exists d. split; reflexivity.
  - cbn [for_ forallb fold_left]. unfold cell_converts at 1 3, converts.
    unfold coerce_col at 2, coerce.
    pose proof (run_coerce_column_cases h d c) as Hbody.
    destruct (df_get c d) as [x|] eqn:Hget.
    + destruct (to_numeric_coerce x) as [y|e] eqn:Hnum.
      * destruct (IH h (df_set c (fillna 0%float y) d)) as (d' & Hrun & Hd').
        assert (forallb (cell_converts (df_set c (fillna 0%float y) d)) rest =
                forallb (cell_converts d) rest) as Hsame.
        { apply forallb_ext_in. intros c' Hc'. unfold cell_converts.
          rewrite df_get_set.
          destruct (String.eqb_spec c c') as [->|_]; [|reflexivity].
          exfalso. apply Hnotin. apply list_elem_of_In. assumption. }
        rewrite Hsame in Hrun, Hd'.
        exists d'. split; [|exact Hd'].
        erewrite bind_run by exact Hbody. exact Hrun.
      * apply to_numeric_raises in Hnum. subst e.
        exists d. split; [|discriminate].
        apply bind_raise. exact Hbody.
    + destruct (IH h d) as (d' & Hrun & Hd').
      exists d'. split; [|exact Hd'].
      erewrite bind_run by exact Hbody. exact Hrun.
Qed.

Lemma df_select_cells (cols : list string) (d : DataFrame)
    (cells : list pyval) :
  Forall2 (fun c x => df_get c d = Some x) cols cells ->
  df_select cols d = Ok (combine cols cells).
Proof.
  intros Hall.
  rewrite (df_select_present cols d
             (fun c => match df_get c d with Some x => x | None => PyNone end)).
  - f_equal. induction Hall as [|c x cols cells Hc _ IH]; [reflexivity|].
    simpl. rewrite Hc, IH. reflexivity.
  - intros c Hc. induction Hall as [|c' x cols cells Hc' _ IH]; [destruct Hc|].
    destruct Hc as [->|Hc]; [rewrite Hc'; reflexivity|apply IH; exact Hc].
Qed.

Lemma df_select_output (d d3 : DataFrame) :
  (forall c, str_in c expected_columns = true ->
             df_get c d3 = Some (final_cell c (df_get c d))) ->
  df_select expected_columns d3 = Ok (output_frame d).
Proof.
  intros Hget. unfold output_frame.
  apply (df_select_present expected_columns d3
           (fun c => final_cell c (df_get c d))).
  intros c Hc. apply Hget. unfold str_in. apply existsb_exists.
  exists c. split; [assumption|apply String.eqb_refl].
Qed.

(** The default of a numeric column converts. *)
Lemma cell_converts_default (d : DataFrame) (c : string) :
  In c numeric_columns ->
  converts (cell_or_default c (df_get c d)) = cell_converts d c.
Proof.
  intros Hc. unfold cell_converts.
  destruct (df_get c d) as [x|]; [reflexivity|].
  simpl in Hc.
  repeat (destruct Hc as [<-|Hc]; [reflexivity|]). destruct Hc.
Qed.

(** The run allocates the working copy and, unless the third loop raises,
    the frame it returns, which is [output_frame] of the input. *)
Lemma run_preprocess_input_cases (h : heap) (r : ref) (d : DataFrame) :
  h !! r = Some d ->
  exists d',
    preprocess_input r h =
    if numeric_cells_convert d
    then (Ok (S (length h)), h ++ [d'; output_frame d])
    else (Raise OverflowError, h ++ [d']).
Proof.
  intros Hr. unfold preprocess_input.
  erewrite bind_run by (apply run_copy; exact Hr).
  erewrite bind_run by (apply run_for_; intros; apply run_ensure_column).
  set (d1 := fold_left (fun acc c => ensure c acc) expected_columns d).
  assert (forall c, str_in c expected_columns = true ->
                    df_get c d1 = Some (cell_or_default c (df_get c d))) as Hd1.
  { intros c Hc. unfold d1. rewrite df_get_ensure_all, Hc. reflexivity. }
  erewrite bind_run;
    [|apply run_encode_loop; apply Hd1; reflexivity].
  set (d2 := df_set "Source" _ _).
  destruct (run_coerce_loop numeric_columns NoDup_numeric_columns h d2)
    as (d3 & Hloop & Hd3).
  assert (forallb (cell_converts d2) numeric_columns = numeric_cells_convert d)
    as Hsame.
  { unfold numeric_cells_convert. apply forallb_ext_in. intros c Hc.
    rewrite <- (cell_converts_default d c Hc).
    unfold cell_converts at 1, d2. rewrite !df_get_set.
    simpl in Hc.
    repeat (destruct Hc as [<-|Hc];
            [eval_eqb; rewrite Hd1 by reflexivity; reflexivity|]).
    destruct Hc. }
  rewrite Hsame in Hloop, Hd3.
  destruct (numeric_cells_convert d).
  - specialize (Hd3 eq_refl). subst d3.
    set (d3 := fold_left (fun acc c => coerce_col c acc) numeric_columns d2).
    erewrite bind_run by exact Hloop.
    erewrite bind_run.
    2:{ rewrite run_getitem_list. fold d3.
        rewrite (df_select_output d d3); [reflexivity|].
        intros c Hc. apply str_in_cases in Hc. simpl in Hc.
        unfold d3. rewrite df_get_coerce_all by exact NoDup_numeric_columns.
        unfold d2. rewrite !df_get_set.
        repeat (destruct Hc as [<-|Hc];
          [eval_eqb; rewrite ?Hd1 by reflexivity; reflexivity|]).
        destruct Hc. }
    exists d3. reflexivity.
  - exists d3. apply bind_raise. exact Hloop.
Qed.

Lemma run_preprocess_input (h : heap) (r : ref) (d : DataFrame) :
  h !! r = Some d ->
  numeric_cells_convert d = true ->
  exists d', preprocess_input r h =
             (Ok (S (length h)), h ++ [d'; output_frame d]).
Proof.
  intros Hr Hconv.
  destruct (run_preprocess_input_cases h r d Hr) as [d' Hrun].
  rewrite Hconv in Hrun. eauto.
Qed.

End RunFacts.

(** ** Comparisons of binary64 numbers *)

Section FloatFacts.

Lemma SFcompare_antisym (x y : spec_float) :
  SFcompare y x = option_map CompOpp (SFcompare x y).
Proof.
  destruct x as [sx|sx| |sx mx ex], y as [sy|sy| |sy my ey]; simpl;
    try reflexivity;
    try (destruct sx; reflexivity);
    try (destruct sy; reflexivity);
    try (destruct sx, sy; reflexivity).
  destruct sx, sy; simpl; try reflexivity;
    rewrite (Z.compare_antisym ex ey);
    destruct (ex ?= ey)%Z; simpl; try reflexivity;
    rewrite Pos.compare_cont_antisym; simpl; try reflexivity.
  destruct (Pos.compare_cont Eq mx my); reflexivity.
Qed.

(** Of two numbers that are not [nan], one is at most the other: [b < p]
    and [a <= a] say that [p] and [a] are numbers. *)
Lemma ltb_false_leb (a b p : float) :
  PrimFloat.ltb b p = true ->
  PrimFloat.leb a a = true ->
  PrimFloat.ltb a p = false ->
  PrimFloat.leb p a = true.
Proof.
  rewrite !ltb_spec, !leb_spec. unfold SFltb, SFleb.
  rewrite (SFcompare_antisym (Prim2SF a) (Prim2SF p)).
  destruct (SFcompare (Prim2SF a) (Prim2SF p)) as [[]|] eqn:E; simpl;
    try discriminate; try reflexivity.
  intros Hb Ha _. exfalso.
  destruct (Prim2SF p) as [sp|sp| |sp mp ep];
    destruct (Prim2SF a) as [sa|sa| |sa ma ea];
    destruct (Prim2SF b) as [sb|sb| |sb mb eb];
    simpl in *; try discriminate;
    try (destruct sa; discriminate); try (destruct sp; discriminate);
    try (destruct sa, sp; discriminate).
Qed.

(** [p <= a] excludes [a < p]. *)
Lemma leb_not_ltb (a p : float) :
  PrimFloat.leb p a = true -> PrimFloat.ltb a p = false.
Proof.
  rewrite ltb_spec, leb_spec. unfold SFltb, SFleb.
  rewrite (SFcompare_antisym (Prim2SF a) (Prim2SF p)).
  destruct (SFcompare (Prim2SF a) (Prim2SF p)) as [[]|]; simpl;
    (discriminate || reflexivity).
Qed.

(** For a number that is not [nan], "not below zero" and "at least zero"
    are the same test. *)
Lemma not_below_zero_nonneg (x : float) :
  PrimFloat.leb x x = true ->
  negb (PrimFloat.ltb x 0%float) = PrimFloat.leb 0%float x.
Proof.
  intros Hnum.
  destruct (PrimFloat.ltb x 0) eqn:Hlt; simpl.
  - destruct (PrimFloat.leb 0 x) eqn:Hle; [|reflexivity].
    apply leb_not_ltb in Hle. congruence.
  - symmetry. apply (ltb_false_leb x (-1)%float 0%float); [reflexivity| |];
      assumption.
Qed.

End FloatFacts.

(** ** The three loops of [validate_input_data] *)

Section ValidateFacts.
Import preprocessor.
Context `{StrParsers}.

Lemma for_fields_none (fields : list string)
    (body : string -> res (option verdict)) :
  for_fields fields body = Ok None <->
  (forall f, In f fields -> body f = Ok None).
Proof.
  induction fields as [|f rest IH]; simpl.
  - split; [intros _ f []|reflexivity].
  - split.
    + intros Hrun g [<-|Hg].
      * destruct (body f) as [[r|]|e]; try discriminate; reflexivity.
      * destruct (body f) as [[r|]|e]; try discriminate.
        apply IH; assumption.
    + intros Hall. rewrite (Hall f) by (left; reflexivity).
      apply IH. intros g Hg. apply Hall. right. assumption.
Qed.

(** The loop returns at the first field whose body does not fall
    through. *)
Lemma for_fields_first (pre post : list string) (f : string)
    (body : string -> res (option verdict)) (r : verdict) :
  (forall g, In g pre -> body g = Ok None) ->
  body f = Ok (Some r) ->
  for_fields (pre ++ f :: post) body = Ok (Some r).
Proof.
  intros Hpre Hf. induction pre as [|g pre IH]; simpl.
  - rewrite Hf. reflexivity.
  - rewrite (Hpre g) by (left; reflexivity).
    apply IH. intros g' Hg'. apply Hpre. right. assumption.
Qed.

(** A verdict returned from inside a loop comes from one field. *)
Lemma for_fields_some (fields : list string)
    (body : string -> res (option verdict)) (r : verdict) :
  for_fields fields body = Ok (Some r) ->
  exists f, In f fields /\ body f = Ok (Some r).
Proof.
  induction fields as [|f rest IH]; simpl; [discriminate|].
  destruct (body f) as [[r'|]|e] eqn:Hf; try discriminate.
  - intros Heq. exists f. split; [left; reflexivity|]. rewrite Hf. assumption.
  - intros Hrest. destruct (IH Hrest) as [g [Hg Hb]].
    exists g. split; [right; assumption|assumption].
Qed.

Lemma required_body_none (d : dict) (f : string) :
  required_body d f = Ok None <-> has_value d f = true.
Proof.
  unfold required_body, has_value.
  destruct (d !! f) as [[| | |]|]; split; (reflexivity || discriminate).
Qed.

Lemma required_body_total (d : dict) (f : string) :
  has_value d f = false ->
  exists msg, required_body d f = Ok (Some (false, msg)).
Proof.
  unfold required_body, has_value.
  destruct (d !! f) as [[| | |]|]; intros Hv; try discriminate; eauto.
Qed.

Lemma numeric_body_none (d : dict) (f : string) :
  numeric_body d f = Ok None <-> when_present d parses_not_below_zero f = true.
Proof.
  unfold numeric_body, when_present, parses_not_below_zero.
  destruct (d !! f) as [v|]; [|split; reflexivity].
  destruct (py_float v) as [x|[]]; try (split; discriminate).
  destruct (PrimFloat.ltb x 0); split; (reflexivity || discriminate).
Qed.

Lemma dq_body_none (d : dict) (f : string) :
  dq_body d f = Ok None <-> when_present d parses_in_unit f = true.
Proof.
  unfold dq_body, when_present, parses_in_unit.
  destruct (d !! f) as [v|]; [|split; reflexivity].
  destruct (py_float v) as [x|[]]; try (split; discriminate).
  destruct (PrimFloat.leb 0 x && PrimFloat.leb x 1);
    split; (reflexivity || discriminate).
Qed.

(** Every verdict a loop body returns is a rejection that names its
    field after one of the six prefixes. *)
Lemma body_verdict (d : dict) (f : string) (r : verdict) :
  required_body d f = Ok (Some r) \/ numeric_body d f = Ok (Some r) \/
  dq_body d f = Ok (Some r) ->
  exists prefix, In prefix violation_prefixes /\ r = (false, prefix +:+ f).
Proof.
  unfold required_body, numeric_body, dq_body, violation_prefixes.
  intros [Hb|[Hb|Hb]]; destruct (d !! f) as [v|]; try discriminate.
  - destruct v; inversion Hb; subst. eexists; split; [|reflexivity].
    simpl; tauto.
  - inversion Hb; subst. eexists; split; [|reflexivity]. simpl; tauto.
  - destruct (py_float v) as [x|[]]; try discriminate.
    + destruct (PrimFloat.ltb x 0); inversion Hb; subst.
      eexists; split; [|reflexivity]. simpl; tauto.
    + inversion Hb; subst. eexists; split; [|reflexivity]. simpl; tauto.
    + inversion Hb; subst. eexists; split; [|reflexivity]. simpl; tauto.
  - destruct (py_float v) as [x|[]]; try discriminate.
    + destruct (negb _); inversion Hb; subst.
      eexists; split; [|reflexivity]. simpl; tauto.
    + inversion Hb; subst. eexists; split; [|reflexivity]. simpl; tauto.
    + inversion Hb; subst. eexists; split; [|reflexivity]. simpl; tauto.
Qed.

Lemma forallb_In {A} (p : A -> bool) (l : list A) :
  forallb p l = true <-> (forall a, In a l -> p a = true).
Proof. apply forallb_forall. Qed.

(** The record is accepted exactly when all three loops fall through. *)
Lemma validate_valid_iff (d : dict) :
  validate_input_data d = Ok (true, "Valid") <->
  forallb (has_value d) required_fields = true /\
  forallb (when_present d parses_not_below_zero) numeric_fields = true /\
  forallb (when_present d parses_in_unit) dq_fields = true.
Proof.
  rewrite !forallb_In.
  setoid_rewrite <- required_body_none.
  setoid_rewrite <- numeric_body_none.
  setoid_rewrite <- dq_body_none.
  rewrite <- !for_fields_none.
  unfold validate_input_data.
  destruct (for_fields required_fields _) as [[r|]|e] eqn:E1.
  - split; [|intros [? _]; discriminate].
    intros Heq. apply for_fields_some in E1 as [f [_ Hb]].
    destruct (body_verdict d f r) as [p [_ ->]]; [tauto|]. discriminate.
  - destruct (for_fields numeric_fields _) as [[r|]|e] eqn:E2.
    + split; [|intros [_ [? _]]; discriminate].
      intros Heq. apply for_fields_some in E2 as [f [_ Hb]].
      destruct (body_verdict d f r) as [p [_ ->]]; [tauto|]. discriminate.
    + destruct (for_fields dq_fields _) as [[r|]|e] eqn:E3.
      * split; [|intros [_ [_ ?]]; discriminate].
        intros Heq. apply for_fields_some in E3 as [f [_ Hb]].
        destruct (body_verdict d f r) as [p [_ ->]]; [tauto|]. discriminate.
      * tauto.
      * split; [discriminate|intros [_ [_ ?]]; discriminate].
    + split; [discriminate|intros [_ [? _]]; discriminate].
  - split; [discriminate|intros [? _]; discriminate].
Qed.

(** When neither required numeric field reads as [nan], the record is
    accepted exactly when both read as numbers that are at least zero and
    every data-quality score that is present reads as a number in
    [[0.0, 1.0]]. *)
Lemma validate_valid_iff_numbers (d : dict) :
  (forall f v x, In f numeric_fields -> d !! f = Some v ->
                 py_float v = Ok x -> PrimFloat.leb x x = true) ->
  validate_input_data d = Ok (true, "Valid") <->
  forallb (has_value d) required_fields = true /\
  forallb (when_present d parses_nonneg) numeric_fields = true /\
  forallb (when_present d parses_in_unit) dq_fields = true.
Proof.
  intros Hnum. rewrite validate_valid_iff.
  assert (forall f, In f numeric_fields ->
            when_present d parses_not_below_zero f =
            when_present d parses_nonneg f) as Hsame.
  { intros f Hf. unfold when_present, parses_not_below_zero, parses_nonneg.
    destruct (d !! f) as [v|] eqn:Hv; [|reflexivity].
    destruct (py_float v) as [x|e] eqn:Hx; [|reflexivity].
    apply not_below_zero_nonneg. apply (Hnum f v x); assumption. }
  rewrite (forallb_In (when_present d parses_not_below_zero)).
  rewrite (forallb_In (when_present d parses_nonneg)).
  split; intros (R & N & Q); repeat split; try assumption;
    intros f Hf; [rewrite <- Hsame|rewrite Hsame]; auto.
Qed.

End ValidateFacts.

(** ** Which loop decides the verdict *)

Section ValidateOrder.
Import preprocessor.
Context `{StrParsers}.

Lemma validate_required_first (d : dict) (pre post : list string)
    (f : string) (r : verdict) :
  required_fields = pre ++ f :: post ->
  (forall g, In g pre -> has_value d g = true) ->
  required_body d f = Ok (Some r) ->
  validate_input_data d = Ok r.
Proof.
  intros Hsplit Hpre Hf. unfold validate_input_data.
  rewrite Hsplit.
  rewrite (for_fields_first pre post f _ r); [reflexivity| |assumption].
  intros g Hg. apply required_body_none. apply Hpre. assumption.
Qed.

Lemma validate_numeric_first (d : dict) (pre post : list string)
    (f : string) (r : verdict) :
  forallb (has_value d) required_fields = true ->
  numeric_fields = pre ++ f :: post ->
  (forall g, In g pre -> when_present d parses_not_below_zero g = true) ->
  numeric_body d f = Ok (Some r) ->
  validate_input_data d = Ok r.
Proof.
  intros Hreq Hsplit Hpre Hf. unfold validate_input_data.
  rewrite (proj2 (for_fields_none required_fields (required_body d))).
  2:{ intros g Hg. apply required_body_none.
      apply (proj1 (forallb_In _ _) Hreq). assumption. }
  rewrite Hsplit.
  rewrite (for_fields_first pre post f _ r); [reflexivity| |assumption].
  intros g Hg. apply numeric_body_none. apply Hpre. assumption.
Qed.

Lemma validate_dq_first (d : dict) (pre post : list string)
    (f : string) (r : verdict) :
  forallb (has_value d) required_fields = true ->
  forallb (when_present d parses_not_below_zero) numeric_fields = true ->
  dq_fields = pre ++ f :: post ->
  (forall g, In g pre -> when_present d parses_in_unit g = true) ->
  dq_body d f = Ok (Some r) ->
  validate_input_data d = Ok r.
Proof.
  intros Hreq Hnum Hsplit Hpre Hf. unfold validate_input_data.
  rewrite (proj2 (for_fields_none required_fields (required_body d))).
  2:{ intros g Hg. apply required_body_none.
      apply (proj1 (forallb_In _ _) Hreq). assumption. }
  rewrite (proj2 (for_fields_none numeric_fields (numeric_body d))).
  2:{ intros g Hg. apply numeric_body_none.
      apply (proj1 (forallb_In _ _) Hnum). assumption. }
  rewrite Hsplit.
  rewrite (for_fields_first pre post f _ r); [reflexivity| |assumption].
  intros g Hg. apply dq_body_none. apply Hpre. assumption.
Qed.

(** Some required field without a value: the first loop returns. *)
Lemma required_loop_rejects (d : dict) (fields : list string) (f : string) :
  In f fields -> has_value d f = false ->
  exists msg, for_fields fields (required_body d) = Ok (Some (false, msg)).
Proof.
  induction fields as [|g rest IH]; simpl; intros Hin Hv; [destruct Hin|].
  destruct (has_value d g) eqn:Hg.
  - rewrite (proj2 (required_body_none d g) Hg).
    destruct Hin as [->|Hin]; [congruence|]. apply IH; assumption.
  - destruct (required_body_total d g Hg) as [msg ->]. eauto.
Qed.

Lemma has_value_insert (d : dict) (k f : string) (v : pyval) :
  has_value (<[k := v]> d) f =
  if String.eqb k f then negb (match v with PyNone => true | _ => false end)
  else has_value d f.
Proof.
  unfold has_value. destruct (String.eqb_spec k f) as [->|Hne].
  - rewrite lookup_insert_eq. destruct v; reflexivity.
  - rewrite lookup_insert_ne by assumption. reflexivity.
Qed.

Lemma when_present_insert (d : dict) (cond : pyval -> bool)
    (k f : string) (v : pyval) :
  when_present (<[k := v]> d) cond f =
  if String.eqb k f then cond v else when_present d cond f.
Proof.
  unfold when_present. destruct (String.eqb_spec k f) as [->|Hne].
  - rewrite lookup_insert_eq. reflexivity.
  - rewrite lookup_insert_ne by assumption. reflexivity.
Qed.

End ValidateOrder.

(** * The claims *)

(** C7.  The impact label follows fixed thresholds: a prediction strictly
    above 0.1 is "High", one strictly above 0.05 and at most 0.1 is
    "Medium", every other prediction ([nan] included) is "Low". *)
Theorem impact_level_thresholds (prediction_value : float) :
  app.impact_level prediction_value =
  if PrimFloat.ltb 0.1%float prediction_value then "High"
  else if PrimFloat.ltb 0.05%float prediction_value
          && PrimFloat.leb prediction_value 0.1%float then "Medium"
  else "Low".
Proof.
  unfold app.impact_level.
  destruct (PrimFloat.ltb 0.1 prediction_value) eqn:Hhigh; [reflexivity|].
  destruct (PrimFloat.ltb 0.05 prediction_value) eqn:Hmed; [|reflexivity].
  rewrite (ltb_false_leb 0.1 0.05 prediction_value Hmed eq_refl Hhigh).
  reflexivity.
Qed.

(** C5.  [validate_input_data] rejects a record in which one of the five
    required keys is absent or [None]; it returns one verdict, which names
    one field, and that verdict is the first violation in the order of the
    checks: presence of the required fields (in the order Substance, Unit,
    supply factor, margin, Source), then type and sign of the two numeric
    fields, then type and range of the data-quality fields that are
    present, each stage reporting its first failing field provided the
    stages and fields before it pass; a record that passes the three
    stages is "Valid".  A record that lacks only Source is rejected with
    "Missing required field: Source". *)
Theorem validate_reports_first_violation `{StrParsers} (input_data : dict) :
  let validate := preprocessor.validate_input_data input_data in
  (forall f, In f preprocessor.required_fields ->
     has_value input_data f = false ->
     exists msg, validate = Ok (false, msg))
  /\ (forall pre f post,
        preprocessor.required_fields = pre ++ f :: post ->
        (forall g, In g pre -> has_value input_data g = true) ->
        (input_data !! f = None ->
         validate = Ok (false, "Missing required field: " +:+ f)) /\
        (input_data !! f = Some PyNone ->
         validate = Ok (false, "Field cannot be None: " +:+ f)))
  /\ (forallb (has_value input_data) preprocessor.required_fields = true ->
      forall pre f post v,
        preprocessor.numeric_fields = pre ++ f :: post ->
        (forall g, In g pre ->
           when_present input_data parses_not_below_zero g = true) ->
        input_data !! f = Some v ->
        (forall x, py_float v = Ok x -> PrimFloat.ltb x 0%float = true ->
           validate = Ok (false, "Field must be non-negative: " +:+ f)) /\
        (py_float v = Raise ValueError \/ py_float v = Raise TypeError ->
           validate = Ok (false, "Field must be numeric: " +:+ f)))
  /\ (forallb (has_value input_data) preprocessor.required_fields = true ->
      forallb (when_present input_data parses_not_below_zero)
        preprocessor.numeric_fields = true ->
      forall pre f post v,
        preprocessor.dq_fields = pre ++ f :: post ->
        (forall g, In g pre -> when_present input_data parses_in_unit g = true) ->
        input_data !! f = Some v ->
        (forall x, py_float v = Ok x ->
           PrimFloat.leb 0%float x && PrimFloat.leb x 1%float = false ->
           validate = Ok (false, "DQ field must be between 0 and 1: " +:+ f)) /\
        (py_float v = Raise ValueError \/ py_float v = Raise TypeError ->
           validate = Ok (false, "DQ field must be numeric: " +:+ f)))
  /\ (forallb (has_value input_data) preprocessor.required_fields = true ->
      forallb (when_present input_data parses_not_below_zero)
        preprocessor.numeric_fields = true ->
      forallb (when_present input_data parses_in_unit)
        preprocessor.dq_fields = true ->
      validate = Ok (true, "Valid"))
  /\ (forall msg, validate = Ok (false, msg) ->
        exists prefix f, In prefix violation_prefixes /\ msg = prefix +:+ f)
  /\ (input_data !! "Source" = None ->
      has_value input_data "Substance" = true ->
      has_value input_data "Unit" = true ->
      has_value input_data "Supply Chain Emission Factors without Margins" = true ->
      has_value input_data "Margins of Supply Chain Emission Factors" = true ->
      validate = Ok (false, "Missing required field: Source")).
Proof.
  intros validate. subst validate. repeat split.
  - intros f Hin Hv. unfold preprocessor.validate_input_data.
    destruct (required_loop_rejects input_data _ f Hin Hv) as [msg ->]. eauto.
  - intros Hnone.
    apply (validate_required_first input_data pre post f); try assumption.
    unfold preprocessor.required_body. rewrite Hnone. reflexivity.
  - intros Hnull.
    apply (validate_required_first input_data pre post f); try assumption.
    unfold preprocessor.required_body. rewrite Hnull. reflexivity.
  - intros x Hx Hneg.
    apply (validate_numeric_first input_data pre post f); try assumption.
    unfold preprocessor.numeric_body.
    match goal with Hv : input_data !! f = Some v |- _ => rewrite Hv end.
    rewrite Hx, Hneg. reflexivity.
  - intros Hraise.
    apply (validate_numeric_first input_data pre post f); try assumption.
    unfold preprocessor.numeric_body.
    match goal with Hv : input_data !! f = Some v |- _ => rewrite Hv end.
    destruct Hraise as [-> | ->]; reflexivity.
  - intros x Hx Hrange.
    apply (validate_dq_first input_data pre post f); try assumption.
    unfold preprocessor.dq_body.
    match goal with Hv : input_data !! f = Some v |- _ => rewrite Hv end.
    rewrite Hx, Hrange. reflexivity.
  - intros Hraise.
    apply (validate_dq_first input_data pre post f); try assumption.
    unfold preprocessor.dq_body.
    match goal with Hv : input_data !! f = Some v |- _ => rewrite Hv end.
    destruct Hraise as [-> | ->]; reflexivity.
  - intros Hreq Hnum Hdq. apply validate_valid_iff. tauto.
  - intros msg. unfold preprocessor.validate_input_data.
    destruct (preprocessor.for_fields preprocessor.required_fields _)
      as [[r|]|e] eqn:E1.
    + intros Heq. inversion Heq; subst.
      apply for_fields_some in E1 as [f [_ Hb]].
      destruct (body_verdict input_data f _ (or_introl Hb)) as [p [Hp Hr]].
      inversion Hr. eauto.
    + destruct (preprocessor.for_fields preprocessor.numeric_fields _)
        as [[r|]|e] eqn:E2.
      * intros Heq. inversion Heq; subst.
        apply for_fields_some in E2 as [f [_ Hb]].
        destruct (body_verdict input_data f _ (or_intror (or_introl Hb)))
          as [p [Hp Hr]].
        inversion Hr. eauto.
      * destruct (preprocessor.for_fields preprocessor.dq_fields _)
          as [[r|]|e] eqn:E3; try discriminate.
        intros Heq. inversion Heq; subst.
        apply for_fields_some in E3 as [f [_ Hb]].
        destruct (body_verdict input_data f _ (or_intror (or_intror Hb)))
          as [p [Hp Hr]].
        inversion Hr. eauto.
      * discriminate.
    + discriminate.
  - intros Hsrc Hsub Hunit Hsup Hmar.
    apply (validate_required_first input_data
             [ "Substance"; "Unit";
               "Supply Chain Emission Factors without Margins";
               "Margins of Supply Chain Emission Factors" ] [] "Source").
    + reflexivity.
    + simpl. intros g [<-|[<-|[<-|[<-|[]]]]]; assumption.
    + unfold preprocessor.required_body. rewrite Hsrc. reflexivity.
Qed.

(** The record of [simple_test.py] without its Source key. *)
Lemma validate_reports_first_violation_witness :
  preprocessor.validate_input_data (H := example_parsers)
    (delete "Source" simple_test.input_data)
  = Ok (false, "Missing required field: Source").
Proof.
  apply (validate_reports_first_violation (H := example_parsers)
           (delete "Source" simple_test.input_data));
    vm_compute; reflexivity.
Defined.

(** ** Records with one value replaced *)

Section ValidateInsert.
Import preprocessor.
Context `{StrParsers}.

Lemma dq_fields_apart (q f : string) :
  In q dq_fields -> In f (required_fields ++ numeric_fields) ->
  String.eqb q f = false.
Proof.
  assert (forallb (fun q => forallb (fun f => negb (String.eqb q f))
                               (required_fields ++ numeric_fields))
                  dq_fields = true) as Hall by (vm_compute; reflexivity).
  intros Hq Hf.
  apply (proj1 (forallb_In _ _) Hall) in Hq.
  apply (proj1 (forallb_In _ _) Hq) in Hf.
  apply negb_true_iff. assumption.
Qed.

Lemma NoDup_dq_fields : NoDup dq_fields.
Proof.
  unfold dq_fields.
  repeat (apply NoDup_cons; split;
    [rewrite list_elem_of_In; simpl; intros Hin;
     repeat (destruct Hin as [Hin|Hin]; [discriminate Hin|]); exact Hin|]).
  apply NoDup_nil. exact I.
Qed.

Lemma nan_is_a_value (v : pyval) :
  py_float v = Ok nan ->
  negb (match v with PyNone => true | _ => false end) = true.
Proof. destruct v; simpl; intros Hv; (discriminate || reflexivity). Qed.

(** A required numeric field that reads as [nan] passes all checks. *)
Lemma validate_insert_numeric_nan (d : dict) (k : string) (v : pyval) :
  In k numeric_fields ->
  validate_input_data d = Ok (true, "Valid") ->
  py_float v = Ok nan ->
  validate_input_data (<[k := v]> d) = Ok (true, "Valid").
Proof.
  intros Hk Hvalid Hnan.
  apply validate_valid_iff in Hvalid as (R & N & Q).
  apply validate_valid_iff.
  rewrite forallb_In in R, N, Q. rewrite !forallb_In.
  repeat split; intros f Hf.
  - rewrite has_value_insert. destruct (String.eqb k f).
    + apply nan_is_a_value. assumption.
    + apply R. assumption.
  - rewrite when_present_insert. destruct (String.eqb k f).
    + unfold parses_not_below_zero. rewrite Hnan. reflexivity.
    + apply N. assumption.
  - rewrite when_present_insert.
    rewrite String.eqb_sym, (dq_fields_apart f k Hf).
    + apply Q. assumption.
    + apply in_or_app. right. assumption.
Qed.

(** A data-quality field that reads as [nan] fails the range check. *)
Lemma validate_insert_dq_nan (d : dict) (q : string) (v : pyval) :
  In q dq_fields ->
  validate_input_data d = Ok (true, "Valid") ->
  py_float v = Ok nan ->
  validate_input_data (<[q := v]> d) =
  Ok (false, "DQ field must be between 0 and 1: " +:+ q).
Proof.
  intros Hq Hvalid Hnan.
  apply validate_valid_iff in Hvalid as (R & N & Q).
  rewrite forallb_In in R, N, Q.
  destruct (in_split q dq_fields Hq) as (pre & post & Hsplit).
  apply (validate_dq_first _ pre post q); try assumption.
  - apply forallb_In. intros f Hf. rewrite has_value_insert.
    rewrite (dq_fields_apart q f Hq) by (apply in_or_app; left; assumption).
    apply R. assumption.
  - apply forallb_In. intros f Hf. rewrite when_present_insert.
    rewrite (dq_fields_apart q f Hq) by (apply in_or_app; right; assumption).
    apply N. assumption.
  - intros g Hg. rewrite when_present_insert.
    destruct (String.eqb_spec q g) as [<-|_].
    + exfalso. pose proof NoDup_dq_fields as Hnd. rewrite Hsplit in Hnd.
      apply NoDup_app in Hnd as (_ & Hnotin & _).
      apply (Hnotin q); [apply list_elem_of_In; assumption|left].
    + apply Q. rewrite Hsplit. apply in_or_app. left. assumption.
  - unfold dq_body. rewrite lookup_insert_eq, Hnan. reflexivity.
Qed.

End ValidateInsert.

(** C10.  [nan] passes the checks of the two required numeric fields and
    fails those of the data-quality fields: replacing the supply factor or
    the margin of an accepted record by a value that [float] reads as [nan]
    (the float itself, or a string such as "nan") leaves the record
    accepted, because [nan < 0] is false; replacing a data-quality score
    by it makes the record rejected, because [0.0 <= nan <= 1.0] is
    false. *)
Theorem validate_nan_asymmetry `{StrParsers} (input_data : dict) (v : pyval) :
  preprocessor.validate_input_data input_data = Ok (true, "Valid") ->
  py_float v = Ok nan ->
  PrimFloat.ltb nan 0%float = false /\
  (PrimFloat.leb 0%float nan && PrimFloat.leb nan 1%float) = false /\
  (forall k, In k preprocessor.numeric_fields ->
     preprocessor.validate_input_data (<[k := v]> input_data) = Ok (true, "Valid")) /\
  (forall q, In q preprocessor.dq_fields ->
     preprocessor.validate_input_data (<[q := v]> input_data) =
     Ok (false, "DQ field must be between 0 and 1: " +:+ q)).
Proof.
  intros Hvalid Hnan. repeat split.
  - intros k Hk. apply validate_insert_numeric_nan; assumption.
  - intros q Hq. apply validate_insert_dq_nan; assumption.
Qed.

(** The record of [simple_test.py] and the string "nan". *)
Lemma validate_nan_asymmetry_witness :
  preprocessor.validate_input_data (H := example_parsers)
    (<["Supply Chain Emission Factors without Margins" := PyStr "nan"]>
       simple_test.input_data) = Ok (true, "Valid") /\
  preprocessor.validate_input_data (H := example_parsers)
    (<["DQ ReliabilityScore of Factors without Margins" := PyStr "nan"]>
       simple_test.input_data) =
  Ok (false, "DQ field must be between 0 and 1: DQ ReliabilityScore of Factors without Margins").
Proof.
  destruct (validate_nan_asymmetry (H := example_parsers)
              simple_test.input_data (PyStr "nan") eq_refl eq_refl)
    as (_ & _ & Hnum & Hdq).
  split.
  - apply Hnum. left. reflexivity.
  - apply (Hdq "DQ ReliabilityScore of Factors without Margins").
    left. reflexivity.
Defined.

(** C4, at the record of [simple_test.py] with a [nan] supply factor: all
    five required fields have a value and the record is accepted, although
    the supply factor is not a non-negative number. *)
Theorem validate_accepts_nan_supply_factor `{StrParsers} :
  let input_data :=
    <["Supply Chain Emission Factors without Margins" := PyFloat nan]>
      simple_test.input_data in
  forallb (has_value input_data) preprocessor.required_fields = true /\
  preprocessor.validate_input_data input_data = Ok (true, "Valid") /\
  parses_nonneg (PyFloat nan) = false.
Proof. repeat split; vm_compute; reflexivity. Qed.

(** ** Runs from the caller's point of view *)

Section CallerFacts.
Import pd pandas preprocessor columnwise.
Context `{StrParsers}.

Lemma lookup_second_last (h : heap) (a b : DataFrame) :
  (h ++ [a; b]) !! S (length h) = Some b.
Proof.
  change (h ++ [a; b]) with (h ++ [a] ++ [b]). rewrite app_assoc.
  replace (S (length h)) with (length (h ++ [a]))
    by (rewrite length_app; simpl; lia).
  apply lookup_last.
Qed.

(** A run returns the row of [output_frame] unless [to_numeric] fails on a
    numeric cell, in which case it raises [OverflowError]. *)
Lemma run_on_preprocess_input_cases (d : DataFrame) :
  run_on preprocess_input d =
  if numeric_cells_convert d then Ok (values (output_frame d))
  else Raise OverflowError.
Proof.
  unfold run_on.
  destruct (run_preprocess_input_cases [d] 0%nat d eq_refl) as [d' ->].
  destruct (numeric_cells_convert d); reflexivity.
Qed.

Lemma run_on_preprocess_input (d : DataFrame) :
  numeric_cells_convert d = true ->
  run_on preprocess_input d = Ok (values (output_frame d)).
Proof.
  intros Hconv. rewrite run_on_preprocess_input_cases, Hconv. reflexivity.
Qed.

(** [to_numeric] returns on every value that [float] reads. *)
Lemma py_float_converts (v : pyval) (x : float) :
  py_float v = Ok x -> converts v = true.
Proof.
  unfold converts. destruct v as [|s|f|z]; simpl; try discriminate.
  - intros _. destruct (to_numeric_str s); reflexivity.
  - reflexivity.
  - destruct (is_inf (float_of_Z z)); [discriminate|].
    intros _. destruct (fits_int64_or_uint64 z); reflexivity.
Qed.

(** On the frame of an accepted record [to_numeric] returns on every
    numeric cell. *)
Lemma valid_record_converts (input_data : dict) :
  validate_input_data input_data = Ok (true, "Valid") ->
  numeric_cells_convert (of_record input_data) = true.
Proof.
  intros Hvalid. apply validate_valid_iff in Hvalid as (_ & N & Q).
  rewrite forallb_In in N, Q.
  unfold numeric_cells_convert. apply forallb_In. intros c Hc.
  unfold cell_converts. rewrite df_get_of_record.
  destruct (input_data !! c) as [v|] eqn:Hv; [|reflexivity].
  change numeric_columns with (numeric_fields ++ dq_fields) in Hc.
  apply in_app_or in Hc as [Hc|Hc].
  - specialize (N c Hc). unfold when_present, parses_not_below_zero in N.
    rewrite Hv in N. destruct (py_float v) as [x|] eqn:Hx; [|discriminate].
    apply (py_float_converts v x Hx).
  - specialize (Q c Hc). unfold when_present, parses_in_unit in Q.
    rewrite Hv in Q. destruct (py_float v) as [x|] eqn:Hx; [|discriminate].
    apply (py_float_converts v x Hx).
Qed.

(** [float] reads every numeric field that an accepted record has. *)
Lemma valid_record_reads (input_data : dict) (col : string) (v : pyval) :
  validate_input_data input_data = Ok (true, "Valid") ->
  In col numeric_columns ->
  input_data !! col = Some v ->
  exists x, py_float v = Ok x.
Proof.
  intros Hvalid Hc Hv. apply validate_valid_iff in Hvalid as (_ & N & Q).
  rewrite forallb_In in N, Q.
  change numeric_columns with (numeric_fields ++ dq_fields) in Hc.
  apply in_app_or in Hc as [Hc|Hc].
  - specialize (N col Hc). unfold when_present, parses_not_below_zero in N.
    rewrite Hv in N. destruct (py_float v) as [x|]; [eauto|discriminate].
  - specialize (Q col Hc). unfold when_present, parses_in_unit in Q.
    rewrite Hv in Q. destruct (py_float v) as [x|]; [eauto|discriminate].
Qed.

(** On a numeric column the default is [0.0]. *)
Lemma final_cell_numeric (col : string) (o : option pyval) :
  In col numeric_columns ->
  final_cell col o = coerce (default (PyFloat 0%float) o).
Proof.
  intros Hcol. simpl in Hcol.
  repeat (destruct Hcol as [<-|Hcol]; [destruct o; reflexivity|]).
  destruct Hcol.
Qed.

Lemma coerce_is_number (x : pyval) : is_number (coerce x) = true.
Proof.
  unfold coerce, fillna, to_numeric_coerce.
  destruct x as [|s|f|z]; try reflexivity.
  - destruct (to_numeric_str s) as [[z|f]|]; simpl; try reflexivity.
    destruct (PrimFloat.is_nan f); reflexivity.
  - destruct (PrimFloat.is_nan f); reflexivity.
  - destruct (fits_int64_or_uint64 z); [reflexivity|].
    destruct (is_inf (float_of_Z z)); [reflexivity|].
    destruct (PrimFloat.is_nan (float_of_Z z)); reflexivity.
Qed.

End CallerFacts.

(** C1, on the code.  For the record of [simple_test.py] (carbon dioxide,
    "kg/2018 USD, purchaser price", 0.1, 0.01, five scores of 0.5,
    Industry), [preprocess_input] of [utils/preprocessor.py] computes the
    vector [0, 1, 0.1, 0.01, 0.5, 0.5, 0.5, 0.5, 0.5, 1]: the unit is
    encoded as 1 where the claim has 0. *)
Theorem preprocess_input_sample_vector `{StrParsers} :
  run_on preprocessor.preprocess_input (pd.of_record simple_test.input_data) =
  Ok [ PyInt 0; PyInt 1; PyFloat 0.1; PyFloat 0.01;
       PyFloat 0.5; PyFloat 0.5; PyFloat 0.5; PyFloat 0.5; PyFloat 0.5;
       PyInt 1 ].
Proof. vm_compute. reflexivity. Qed.

(** The sibling implementation in [simple_test.py] computes the vector of
    the claim. *)
Lemma simple_test_sample_vector :
  run_on simple_test.preprocess_input (pd.of_record simple_test.input_data) =
  Ok [ PyInt 0; PyInt 0; PyFloat 0.1; PyFloat 0.01;
       PyFloat 0.5; PyFloat 0.5; PyFloat 0.5; PyFloat 0.5; PyFloat 0.5;
       PyInt 1 ].
Proof. vm_compute. reflexivity. Qed.

(** [LabelEncoder.fit] sorts the unit labels: "kg CO2e/..." comes before
    "kg/..." because a space precedes a slash. *)
Lemma unit_classes_sorted :
  sklearn.classes_ (sklearn.fit unit_vocabulary) =
  [ "kg CO2e/2018 USD, purchaser price"; "kg/2018 USD, purchaser price" ].
Proof. reflexivity. Qed.

(** ** The three code cells of a run *)

Section CodeFacts.
Import pd preprocessor columnwise.
Context `{StrParsers}.

Lemma encode_unseen :
  (forall x, py_in x substance_vocabulary = false -> encode "Substance" x = Ok 0) /\
  (forall x, py_in x unit_vocabulary = false -> encode "Unit" x = Ok 1) /\
  (forall x, py_in x source_vocabulary = false -> encode "Source" x = Ok 0).
Proof.
  repeat split; intros x Hx; unfold encode;
    match goal with |- context [expected_categories_of ?c] =>
      let cats := eval vm_compute in (expected_categories_of c) in
      change (expected_categories_of c) with cats; cbv beta iota end;
    unfold unseen_to_first;
    unfold substance_vocabulary, unit_vocabulary, source_vocabulary in Hx;
    rewrite Hx; reflexivity.
Qed.

Lemma code_of_ok (col : string) (x : pyval) (code : Z) :
  encode col x = Ok code -> code_of col x = code.
Proof. unfold code_of. intros ->. reflexivity. Qed.

(** Positions 0, 1 and 9 of the vector of a run hold the codes of the
    Substance, Unit and Source cells (of "Unknown" for a column the frame
    lacks). *)
Lemma run_codes (d : DataFrame) :
  numeric_cells_convert d = true ->
  exists row,
    run_on preprocess_input d = Ok row /\
    row !! 0%nat =
      Some (PyInt (code_of "Substance"
                     (cell_or_default "Substance" (df_get "Substance" d)))) /\
    row !! 1%nat =
      Some (PyInt (code_of "Unit" (cell_or_default "Unit" (df_get "Unit" d)))) /\
    row !! 9%nat =
      Some (PyInt (code_of "Source"
                     (cell_or_default "Source" (df_get "Source" d)))).
Proof.
  intros Hconv.
  eexists. split; [apply run_on_preprocess_input; assumption|].
  repeat split; reflexivity.
Qed.

(** The only exception of a run is the [OverflowError] of line 79. *)
Lemma run_raises (d : DataFrame) :
  numeric_cells_convert d = false ->
  run_on preprocess_input d = Raise OverflowError.
Proof.
  intros Hconv. rewrite run_on_preprocess_input_cases, Hconv. reflexivity.
Qed.

End CodeFacts.

(** C2, on the code.  The codes [preprocess_input] of
    [utils/preprocessor.py] gives, in any frame on which it returns, to the
    values of the three vocabularies: those of substance and source are the
    documented ones, the two unit codes are exchanged ("kg/2018 USD,
    purchaser price" is 1 and "kg CO2e/2018 USD, purchaser price" is 0).
    The run returns unless [to_numeric] fails on a numeric cell.  The last
    two lines are the record of [simple_test.py] with each of the two
    units. *)
Theorem vocabulary_codes `{StrParsers} (d : pd.DataFrame) :
  (columnwise.numeric_cells_convert d = true ->
   exists row,
     run_on preprocessor.preprocess_input d = Ok row /\
     (forall s code,
        In (s, code) [ ("carbon dioxide", 0); ("methane", 1);
                       ("nitrous oxide", 2); ("other GHGs", 3) ] ->
        pd.df_get "Substance" d = Some (PyStr s) ->
        row !! 0%nat = Some (PyInt code)) /\
     (forall u code,
        In (u, code) [ ("kg/2018 USD, purchaser price", 1);
                       ("kg CO2e/2018 USD, purchaser price", 0) ] ->
        pd.df_get "Unit" d = Some (PyStr u) ->
        row !! 1%nat = Some (PyInt code)) /\
     (forall s code,
        In (s, code) [ ("Commodity", 0); ("Industry", 1) ] ->
        pd.df_get "Source" d = Some (PyStr s) ->
        row !! 9%nat = Some (PyInt code))) /\
  (columnwise.numeric_cells_convert d = false ->
   run_on preprocessor.preprocess_input d = Raise OverflowError) /\
  cell_of_run "Unit" (PyStr "kg/2018 USD, purchaser price") 1 = Some (PyInt 1) /\
  cell_of_run "Unit" (PyStr "kg CO2e/2018 USD, purchaser price") 1 = Some (PyInt 0).
Proof.
  split; [|split; [apply run_raises|split; vm_compute; reflexivity]].
  intros Hconv.
  destruct (run_codes d Hconv) as (row & Hrun & Hsub & Hunit & Hsrc).
  exists row. split; [exact Hrun|].
  repeat split.
  - intros s code Hin Hs. rewrite Hsub, Hs. simpl in Hin.
    repeat (destruct Hin as [Hin|Hin];
            [inversion Hin; subst; vm_compute; reflexivity|]).
    destruct Hin.
  - intros u code Hin Hu. rewrite Hunit, Hu. simpl in Hin.
    repeat (destruct Hin as [Hin|Hin];
            [inversion Hin; subst; vm_compute; reflexivity|]).
    destruct Hin.
  - intros s code Hin Hs. rewrite Hsrc, Hs. simpl in Hin.
    repeat (destruct Hin as [Hin|Hin];
            [inversion Hin; subst; vm_compute; reflexivity|]).
    destruct Hin.
Qed.

(** C3, on the code.  On no frame does the encoding raise: a run returns
    unless [to_numeric] fails on a numeric cell at line 79, and then it
    raises [OverflowError].  A value outside the vocabulary is replaced by
    the first label of the vocabulary, whose code is 0 for substance and
    source and 1 for unit: "xenon" is encoded as 0, like "carbon dioxide",
    and an unseen unit is encoded as 1. *)
Theorem unseen_category_codes `{StrParsers} (d : pd.DataFrame) :
  (columnwise.numeric_cells_convert d = true ->
   exists row,
     run_on preprocessor.preprocess_input d = Ok row /\
     (forall x, pd.df_get "Substance" d = Some x ->
                preprocessor.py_in x substance_vocabulary = false ->
                row !! 0%nat = Some (PyInt 0)) /\
     (forall x, pd.df_get "Unit" d = Some x ->
                preprocessor.py_in x unit_vocabulary = false ->
                row !! 1%nat = Some (PyInt 1)) /\
     (forall x, pd.df_get "Source" d = Some x ->
                preprocessor.py_in x source_vocabulary = false ->
                row !! 9%nat = Some (PyInt 0))) /\
  (columnwise.numeric_cells_convert d = false ->
   run_on preprocessor.preprocess_input d = Raise OverflowError) /\
  cell_of_run "Substance" (PyStr "xenon") 0 = Some (PyInt 0) /\
  cell_of_run "Substance" (PyStr "carbon dioxide") 0 = Some (PyInt 0) /\
  cell_of_run "Unit" (PyStr "litre") 1 = Some (PyInt 1) /\
  cell_of_run "Source" (PyStr "Household") 9 = Some (PyInt 0).
Proof.
  split; [|split; [apply run_raises|repeat split; vm_compute; reflexivity]].
  intros Hconv.
  destruct (run_codes d Hconv) as (row & Hrun & Hsub & Hunit & Hsrc).
  destruct encode_unseen as (Esub & Eunit & Esrc).
  exists row. split; [exact Hrun|].
  repeat split.
  - intros x Hx Hout. rewrite Hsub, Hx. simpl.
    rewrite (code_of_ok _ _ _ (Esub x Hout)). reflexivity.
  - intros x Hx Hout. rewrite Hunit, Hx. simpl.
    rewrite (code_of_ok _ _ _ (Eunit x Hout)). reflexivity.
  - intros x Hx Hout. rewrite Hsrc, Hx. simpl.
    rewrite (code_of_ok _ _ _ (Esrc x Hout)). reflexivity.
Qed.

(** ** A whole run of [simple_test.preprocess_input] *)

Section SimpleTestFacts.
Import pd pandas.
Local Open Scope py_scope.

Lemma run_map_column (h : heap) (d : DataFrame) (col : string)
    (mapping : gmap string Z) (x : pyval) :
  df_get col d = Some x ->
  simple_test.map_column (length h) col mapping (h ++ [d]) =
  (Ok tt, h ++ [df_set col (map_dict mapping x) d]).
Proof.
  intros Hget. unfold simple_test.map_column, bind.
  rewrite run_getitem, Hget. apply run_setitem.
Qed.

Lemma run_simple_preprocess_input (h : heap) (r : ref) (d : DataFrame)
    (xs xu xo : pyval) :
  h !! r = Some d ->
  df_get "Substance" d = Some xs ->
  df_get "Unit" d = Some xu ->
  df_get "Source" d = Some xo ->
  let d' := df_set "Source" (map_dict simple_test.source_map xo)
              (df_set "Unit" (map_dict simple_test.unit_map xu)
                 (df_set "Substance" (map_dict simple_test.substance_map xs) d)) in
  simple_test.preprocess_input r h =
  match df_select simple_test.expected_columns d' with
  | Ok out => (Ok (S (length h)), h ++ [d'; out])
  | Raise e => (Raise e, h ++ [d'])
  end.
Proof.
  intros Hr Hs Hu Ho d'. unfold simple_test.preprocess_input.
  erewrite bind_run by (apply run_copy; exact Hr).
  erewrite bind_run by (apply run_map_column; exact Hs).
  erewrite bind_run
    by (apply run_map_column; rewrite df_get_set; eval_eqb; exact Hu).
  erewrite bind_run
    by (apply run_map_column; rewrite !df_get_set; eval_eqb; exact Ho).
  apply run_getitem_list.
Qed.

(** The vector of [simple_test.py] for a record with all ten keys: the
    three mapped codes around the seven numeric values as they are. *)
Lemma run_on_simple_preprocess_input (input_data : dict)
    (xs xu xo x1 x2 x3 x4 x5 x6 x7 : pyval) :
  input_data !! "Substance" = Some xs ->
  input_data !! "Unit" = Some xu ->
  input_data !! "Supply Chain Emission Factors without Margins" = Some x1 ->
  input_data !! "Margins of Supply Chain Emission Factors" = Some x2 ->
  input_data !! "DQ ReliabilityScore of Factors without Margins" = Some x3 ->
  input_data !! "DQ TemporalCorrelation of Factors without Margins" = Some x4 ->
  input_data !! "DQ GeographicalCorrelation of Factors without Margins" = Some x5 ->
  input_data !! "DQ TechnologicalCorrelation of Factors without Margins" = Some x6 ->
  input_data !! "DQ DataCollection of Factors without Margins" = Some x7 ->
  input_data !! "Source" = Some xo ->
  run_on simple_test.preprocess_input (of_record input_data) =
  Ok [ map_dict simple_test.substance_map xs;
       map_dict simple_test.unit_map xu;
       x1; x2; x3; x4; x5; x6; x7;
       map_dict simple_test.source_map xo ].
Proof.
  intros Hs Hu H1 H2 H3 H4 H5 H6 H7 Ho. unfold run_on.
  rewrite (run_simple_preprocess_input [of_record input_data] 0%nat
             (of_record input_data) xs xu xo eq_refl)
    by (rewrite df_get_of_record; assumption).
  rewrite (df_select_cells simple_test.expected_columns _
             [ map_dict simple_test.substance_map xs;
               map_dict simple_test.unit_map xu;
               x1; x2; x3; x4; x5; x6; x7;
               map_dict simple_test.source_map xo ]); [reflexivity|].
  unfold simple_test.expected_columns.
  repeat constructor; rewrite !df_get_set; eval_eqb;
    rewrite ?df_get_of_record; try assumption; reflexivity.
Qed.

End SimpleTestFacts.

(** On a value of the vocabulary the substance and source codes of the two
    implementations coincide. *)
Lemma substance_codes_agree (s : string) :
  In s substance_vocabulary ->
  PyInt (columnwise.code_of "Substance" (PyStr s)) =
  pd.map_dict simple_test.substance_map (PyStr s).
Proof.
  simpl. intros Hs.
  repeat (destruct Hs as [<-|Hs]; [vm_compute; reflexivity|]). destruct Hs.
Qed.

Lemma source_codes_agree (s : string) :
  In s source_vocabulary ->
  PyInt (columnwise.code_of "Source" (PyStr s)) =
  pd.map_dict simple_test.source_map (PyStr s).
Proof.
  simpl. intros Hs.
  repeat (destruct Hs as [<-|Hs]; [vm_compute; reflexivity|]). destruct Hs.
Qed.

Lemma coerce_plain_number `{StrParsers} (x : pyval) :
  plain_number x = true -> columnwise.coerce x = x.
Proof.
  destruct x as [|s|f|z]; simpl; try discriminate.
  - unfold columnwise.coerce, pd.fillna. simpl.
    destruct (PrimFloat.is_nan f); [discriminate|reflexivity].
  - intros Hfit. unfold columnwise.coerce. simpl. rewrite Hfit. reflexivity.
Qed.

Lemma plain_number_converts `{StrParsers} (x : pyval) :
  plain_number x = true -> columnwise.converts x = true.
Proof.
  destruct x as [|s|f|z]; simpl; try discriminate.
  - reflexivity.
  - intros Hfit. unfold columnwise.converts. simpl. rewrite Hfit. reflexivity.
Qed.

(** C9, at an explicit record.  On the record of [simple_test.py] with a
    [nan] supply factor, whose categorical values lie in the vocabularies
    and whose seven numeric fields are present, the two implementations
    return different vectors: [utils/preprocessor.py] has replaced [nan] by
    0.0 at the position of the supply factor, [simple_test.py] has left it
    there. *)
Lemma implementations_differ_on_nan :
  let input_data :=
    <["Supply Chain Emission Factors without Margins" := PyFloat nan]>
      simple_test.input_data in
  exists row row',
    run_on (preprocessor.preprocess_input (H := example_parsers))
      (pd.of_record input_data) = Ok row /\
    run_on simple_test.preprocess_input (pd.of_record input_data) = Ok row' /\
    row !! 2%nat = Some (PyFloat 0%float) /\
    row' !! 2%nat = Some (PyFloat nan) /\
    row <> row'.
Proof.
  eexists. eexists.
  split; [vm_compute; reflexivity|].
  split; [vm_compute; reflexivity|].
  split; [reflexivity|]. split; [reflexivity|].
  intros Heq.
  assert (PyFloat 0%float = PyFloat nan) as Hcell
    by (apply (f_equal (fun r => nth 2 r PyNone)) in Heq; exact Heq).
  apply (f_equal (fun x => match x with
                           | PyFloat f => PrimFloat.is_nan f
                           | _ => false
                           end)) in Hcell.
  vm_compute in Hcell. discriminate.
Qed.

(** C9, amended.  For every one-row record whose Substance, Unit and
    Source lie in the vocabularies and whose seven numeric fields are
    present as numbers that a frame stores as they are (floats other than
    [nan], integers within the range of [int64] or [uint64]), both
    implementations return a vector of ten cells, and the two vectors hold
    the same substance code, the same source code and the same seven
    numeric cells, position by position.  (Position 1, the unit code, is
    left out.) *)
Theorem implementations_agree_off_unit `{StrParsers} (input_data : dict) :
  (exists s, input_data !! "Substance" = Some (PyStr s) /\
             In s substance_vocabulary) ->
  (exists u, input_data !! "Unit" = Some (PyStr u) /\ In u unit_vocabulary) ->
  (exists s, input_data !! "Source" = Some (PyStr s) /\ In s source_vocabulary) ->
  (forall col, In col preprocessor.numeric_columns ->
     exists x, input_data !! col = Some x /\ plain_number x = true) ->
  exists row row',
    run_on preprocessor.preprocess_input (pd.of_record input_data) = Ok row /\
    run_on simple_test.preprocess_input (pd.of_record input_data) = Ok row' /\
    length row = 10%nat /\
    length row' = 10%nat /\
    forall i, i <> 1%nat -> row !! i = row' !! i.
Proof.
  intros (s & Hs & Hsv) (u & Hu & Huv) (o & Ho & Hov) Hnum.
  destruct (Hnum "Supply Chain Emission Factors without Margins")
    as (x1 & H1 & P1); [simpl; tauto|].
  destruct (Hnum "Margins of Supply Chain Emission Factors")
    as (x2 & H2 & P2); [simpl; tauto|].
  destruct (Hnum "DQ ReliabilityScore of Factors without Margins")
    as (x3 & H3 & P3); [simpl; tauto|].
  destruct (Hnum "DQ TemporalCorrelation of Factors without Margins")
    as (x4 & H4 & P4); [simpl; tauto|].
  destruct (Hnum "DQ GeographicalCorrelation of Factors without Margins")
    as (x5 & H5 & P5); [simpl; tauto|].
  destruct (Hnum "DQ TechnologicalCorrelation of Factors without Margins")
    as (x6 & H6 & P6); [simpl; tauto|].
  destruct (Hnum "DQ DataCollection of Factors without Margins")
    as (x7 & H7 & P7); [simpl; tauto|].
  assert (columnwise.numeric_cells_convert (pd.of_record input_data) = true)
    as Hconv.
  { unfold columnwise.numeric_cells_convert, preprocessor.numeric_columns,
      columnwise.cell_converts.
    cbn [forallb]. rewrite !df_get_of_record.
    rewrite H1, H2, H3, H4, H5, H6, H7.
    rewrite !plain_number_converts by assumption. reflexivity. }
  eexists. eexists.
  split; [apply run_on_preprocess_input; exact Hconv|].
  split; [eapply run_on_simple_preprocess_input; eassumption|].
  unfold columnwise.output_frame, pd.values, preprocessor.expected_columns.
  cbn [map fst snd]. rewrite !df_get_of_record.
  repeat match goal with
  | |- context [columnwise.final_cell ?c ?o] =>
      rewrite (final_cell_numeric c o) by (simpl; tauto)
  end.
  rewrite Hs, Hu, Ho, H1, H2, H3, H4, H5, H6, H7. cbn [default].
  rewrite !coerce_plain_number by assumption.
  split; [reflexivity|]. split; [reflexivity|].
  intros i Hi.
  destruct i as [|[|i]]; [|congruence|].
  - cbn [lookup list_lookup]. f_equal. apply substance_codes_agree. assumption.
  - do 7 (destruct i as [|i]; [reflexivity|]).
    destruct i as [|i]; [|reflexivity].
    cbn [lookup list_lookup]. f_equal. apply source_codes_agree. assumption.
Qed.

(** The record of [simple_test.py]. *)
Lemma implementations_agree_off_unit_witness :
  exists row row',
    run_on (preprocessor.preprocess_input (H := example_parsers))
      (pd.of_record simple_test.input_data) = Ok row /\
    run_on simple_test.preprocess_input (pd.of_record simple_test.input_data)
      = Ok row' /\
    forall i, i <> 1%nat -> row !! i = row' !! i.
Proof.
  destruct (implementations_agree_off_unit (H := example_parsers)
              simple_test.input_data) as (row & row' & Hr & Hr' & _ & _ & Hagree).
  - exists "carbon dioxide". split; [reflexivity|simpl; tauto].
  - exists "kg/2018 USD, purchaser price". split; [reflexivity|simpl; tauto].
  - exists "Industry". split; [reflexivity|simpl; tauto].
  - simpl. intros col Hcol.
    repeat (destruct Hcol as [<-|Hcol];
            [eexists; split; [vm_compute; reflexivity|reflexivity]|]).
    destruct Hcol.
  - exists row, row'. repeat split; assumption.
Defined.

(** C6, at an explicit record.  The record of [simple_test.py] with the
    supply factor given as the integer 1 is accepted by
    [validate_input_data], and the vector computed for it holds the integer
    1 at the position of the supply factor: not every numeric field has
    become a floating-point number. *)
Lemma integer_field_stays_integer :
  let input_data :=
    <["Supply Chain Emission Factors without Margins" := PyInt 1]>
      simple_test.input_data in
  preprocessor.validate_input_data (H := example_parsers) input_data
    = Ok (true, "Valid") /\
  ~ (exists row,
       run_on (preprocessor.preprocess_input (H := example_parsers))
         (pd.of_record input_data) = Ok row /\
       length row = 10%nat /\
       forallb is_float (numeric_cells row) = true).
Proof.
  split; [vm_compute; reflexivity|].
  intros (row & Hrun & _ & Hfloat).
  vm_compute in Hrun. inversion Hrun; subst row.
  vm_compute in Hfloat. discriminate.
Qed.

(** C6, amended.  For every record that [validate_input_data] accepts,
    [preprocess_input] returns a vector of exactly ten cells in the order
    substance code, unit code, supply factor, margin, the five
    data-quality scores, source code.  The three codes are integers.  Each
    of the seven numeric cells is a number, the value of the field read by
    [to_numeric] with [nan] replaced by 0.0: a float stays a float, an
    integer within the range of int64 or uint64 stays an integer, an
    integer outside that range becomes the float [float] reads for it, a
    string becomes the number [to_numeric] reads in it (an integer if it
    reads one) or 0.0 if it reads none, and no field is [None]; a
    data-quality field that is absent gives 0.0. *)
Theorem preprocess_input_vector `{StrParsers} (input_data : dict) :
  preprocessor.validate_input_data input_data = Ok (true, "Valid") ->
  let num col := columnwise.coerce (default (PyFloat 0%float) (input_data !! col)) in
  exists substance_code unit_code source_code row,
    run_on preprocessor.preprocess_input (pd.of_record input_data) = Ok row /\
    row =
      [ PyInt substance_code;
        PyInt unit_code;
        num "Supply Chain Emission Factors without Margins";
        num "Margins of Supply Chain Emission Factors";
        num "DQ ReliabilityScore of Factors without Margins";
        num "DQ TemporalCorrelation of Factors without Margins";
        num "DQ GeographicalCorrelation of Factors without Margins";
        num "DQ TechnologicalCorrelation of Factors without Margins";
        num "DQ DataCollection of Factors without Margins";
        PyInt source_code ] /\
    length row = 10%nat /\
    forallb is_number row = true /\
    (forall x, input_data !! "Substance" = Some x ->
               columnwise.encode "Substance" x = Ok substance_code) /\
    (forall x, input_data !! "Unit" = Some x ->
               columnwise.encode "Unit" x = Ok unit_code) /\
    (forall x, input_data !! "Source" = Some x ->
               columnwise.encode "Source" x = Ok source_code) /\
    (forall col, In col preprocessor.numeric_columns ->
       (input_data !! col = None -> num col = PyFloat 0%float) /\
       (forall f, input_data !! col = Some (PyFloat f) ->
                  num col = PyFloat (if PrimFloat.is_nan f then 0%float else f)) /\
       (forall z, input_data !! col = Some (PyInt z) ->
                  is_inf (float_of_Z z) = false /\
                  num col =
                    if pd.fits_int64_or_uint64 z then PyInt z
                    else pd.fillna 0%float (PyFloat (float_of_Z z))) /\
       (forall s, input_data !! col = Some (PyStr s) ->
                  num col =
                    match to_numeric_str s with
                    | Some (NInt z) => PyInt z
                    | Some (NFloat f) =>
                        PyFloat (if PrimFloat.is_nan f then 0%float else f)
                    | None => PyFloat 0%float
                    end) /\
       input_data !! col <> Some PyNone).
Proof.
  intros Hvalid num.
  exists (columnwise.code_of "Substance"
            (columnwise.cell_or_default "Substance" (input_data !! "Substance"))),
         (columnwise.code_of "Unit"
            (columnwise.cell_or_default "Unit" (input_data !! "Unit"))),
         (columnwise.code_of "Source"
            (columnwise.cell_or_default "Source" (input_data !! "Source"))).
  eexists.
  split; [apply run_on_preprocess_input, valid_record_converts; exact Hvalid|].
  unfold columnwise.output_frame, pd.values, preprocessor.expected_columns.
  cbn [map fst snd]. rewrite !df_get_of_record.
  repeat match goal with
  | |- context [columnwise.final_cell ?c ?o] =>
      rewrite (final_cell_numeric c o) by (simpl; tauto)
  end.
  split; [reflexivity|]. split; [reflexivity|].
  split.
  { cbn [forallb]. rewrite !coerce_is_number. reflexivity. }
  split; [intros x Hx; rewrite Hx; apply encode_total; reflexivity|].
  split; [intros x Hx; rewrite Hx; apply encode_total; reflexivity|].
  split; [intros x Hx; rewrite Hx; apply encode_total; reflexivity|].
  intros col Hcol.
  split; [intros Hnone; unfold num; rewrite Hnone; reflexivity|].
  split.
  { intros f Hf. unfold num. rewrite Hf.
    unfold columnwise.coerce, pd.to_numeric_coerce, pd.fillna. simpl.
    destruct (PrimFloat.is_nan f); reflexivity. }
  split.
  { intros z Hz.
    destruct (valid_record_reads input_data col _ Hvalid Hcol Hz) as [x Hx].
    simpl in Hx.
    destruct (is_inf (float_of_Z z)) eqn:Hinf; [discriminate|].
    split; [reflexivity|].
    unfold num. rewrite Hz. unfold columnwise.coerce. simpl.
    destruct (pd.fits_int64_or_uint64 z); [reflexivity|].
    rewrite Hinf. reflexivity. }
  split.
  { intros s Hs. unfold num. rewrite Hs. unfold columnwise.coerce. simpl.
    destruct (to_numeric_str s) as [[z|f]|]; simpl; try reflexivity.
    destruct (PrimFloat.is_nan f); reflexivity. }
  intros Hnone.
  destruct (valid_record_reads input_data col _ Hvalid Hcol Hnone) as [x Hx].
  discriminate.
Qed.

(** The record of [simple_test.py] without its last data-quality score. *)
Lemma preprocess_input_vector_witness :
  exists row,
    run_on (preprocessor.preprocess_input (H := example_parsers))
      (pd.of_record
         (delete "DQ DataCollection of Factors without Margins"
            simple_test.input_data)) = Ok row /\
    length row = 10%nat /\
    row !! 8%nat = Some (PyFloat 0%float).
Proof.
  assert (preprocessor.validate_input_data (H := example_parsers)
            (delete "DQ DataCollection of Factors without Margins"
               simple_test.input_data) = Ok (true, "Valid")) as Hvalid
    by (vm_compute; reflexivity).
  destruct (preprocess_input_vector (H := example_parsers) _ Hvalid)
    as (cs & cu & co & row & Hrun & Hrow & Hlen & _).
  exists row. split; [exact Hrun|]. split; [exact Hlen|].
  rewrite Hrow. vm_compute. reflexivity.
Defined.

(** C8.  A call of [preprocess_input] leaves every frame that existed
    before it unchanged, the caller's frame in particular, whether it
    returns or raises.  On the frame of every accepted record, and on every
    frame on whose numeric cells [to_numeric] returns, the call returns a
    new frame whose cells depend on the caller's frame only, so a second
    call on the same frame returns a frame with the same cells.  On any
    other frame the call raises [OverflowError]. *)
Theorem preprocess_input_pure `{StrParsers}
    (h : pd.heap) (input_df : pd.ref) (d : pd.DataFrame) :
  h !! input_df = Some d ->
  (forall input_data,
     d = pd.of_record input_data ->
     preprocessor.validate_input_data input_data = Ok (true, "Valid") ->
     columnwise.numeric_cells_convert d = true) /\
  (columnwise.numeric_cells_convert d = true ->
   exists out1 h1 out2 h2 result,
     preprocessor.preprocess_input input_df h = (Ok out1, h1) /\
     preprocessor.preprocess_input input_df h1 = (Ok out2, h2) /\
     h1 !! out1 = Some result /\
     h2 !! out2 = Some result /\
     h1 !! input_df = Some d /\
     h2 !! input_df = Some d /\
     (forall r, (r < length h)%nat -> h1 !! r = h !! r /\ h2 !! r = h !! r) /\
     (length h <= out1)%nat /\
     (forall h' r', h' !! r' = Some d ->
        exists out' h'',
          preprocessor.preprocess_input r' h' = (Ok out', h'') /\
          h'' !! out' = Some result)) /\
  (columnwise.numeric_cells_convert d = false ->
   exists h1,
     preprocessor.preprocess_input input_df h = (Raise OverflowError, h1) /\
     h1 !! input_df = Some d /\
     (forall r, (r < length h)%nat -> h1 !! r = h !! r)).
Proof.
  intros Hd.
  split; [intros input_data -> Hvalid; apply valid_record_converts; exact Hvalid|].
  split.
  - intros Hconv.
    destruct (run_preprocess_input h input_df d Hd Hconv) as [w1 Hrun1].
    assert (forall r, (r < length h)%nat ->
              (h ++ [w1; columnwise.output_frame d]) !! r = h !! r) as Hold.
    { intros r Hr. apply lookup_app_l. assumption. }
    assert ((h ++ [w1; columnwise.output_frame d]) !! input_df = Some d) as Hd1.
    { rewrite Hold; [assumption|]. apply lookup_lt_Some in Hd. assumption. }
    destruct (run_preprocess_input _ input_df d Hd1 Hconv) as [w2 Hrun2].
    eexists _, _, _, _, (columnwise.output_frame d).
    split; [exact Hrun1|]. split; [exact Hrun2|].
    split; [apply lookup_second_last|]. split; [apply lookup_second_last|].
    split; [exact Hd1|].
    assert (forall r, (r < length h)%nat ->
              ((h ++ [w1; columnwise.output_frame d]) ++
                 [w2; columnwise.output_frame d]) !! r = h !! r) as Hold2.
    { intros r Hr. rewrite lookup_app_l; [apply Hold; assumption|].
      rewrite length_app. lia. }
    split.
    { rewrite Hold2; [assumption|]. apply lookup_lt_Some in Hd. assumption. }
    split; [intros r Hr; split; [apply Hold|apply Hold2]; assumption|].
    split; [lia|].
    intros h' r' Hd'.
    destruct (run_preprocess_input h' r' d Hd' Hconv) as [w' Hrun'].
    eexists _, _. split; [exact Hrun'|]. apply lookup_second_last.
  - intros Hconv.
    destruct (run_preprocess_input_cases h input_df d Hd) as [w1 Hrun1].
    rewrite Hconv in Hrun1.
    eexists. split; [exact Hrun1|].
    assert (forall r, (r < length h)%nat -> (h ++ [w1]) !! r = h !! r) as Hold.
    { intros r Hr. apply lookup_app_l. assumption. }
    split; [|exact Hold].
    rewrite Hold; [assumption|]. apply lookup_lt_Some in Hd. assumption.
Qed.

(** The frame of the record of [simple_test.py], alone on the heap. *)
Lemma preprocess_input_pure_witness :
  exists out1 h1 out2 h2 result,
    preprocessor.preprocess_input (H := example_parsers) 0%nat
      [pd.of_record simple_test.input_data] = (Ok out1, h1) /\
    preprocessor.preprocess_input (H := example_parsers) 0%nat h1 = (Ok out2, h2) /\
    h1 !! out1 = Some result /\
    h2 !! out2 = Some result /\
    h1 !! 0%nat = Some (pd.of_record simple_test.input_data) /\
    h2 !! 0%nat = Some (pd.of_record simple_test.input_data).
Proof.
  destruct (preprocess_input_pure (H := example_parsers)
              [pd.of_record simple_test.input_data] 0%nat
              (pd.of_record simple_test.input_data) eq_refl)
    as (_ & Hreturns & _).
  destruct (Hreturns eq_refl)
    as (out1 & h1 & out2 & h2 & result & H1 & H2 & H3 & H4 & H5 & H6 & _).
  exists out1, h1, out2, h2, result. repeat split; assumption.
Defined.

(** * Further properties of the code *)

(** ** More on binary64 numbers *)

Section MoreFloatFacts.

Lemma SFcompare_refl (x : spec_float) :
  x <> S754_nan -> SFcompare x x = Some Eq.
Proof.
  destruct x as [s|s| |s m e]; simpl; intros Hx; try congruence.
  - destruct s; reflexivity.
  - destruct s; rewrite Z.compare_refl, Pos.compare_cont_refl; reflexivity.
Qed.

(** A number that compares with another one is not [nan]. *)
Lemma leb_is_number (a x : float) :
  PrimFloat.leb a x = true -> PrimFloat.is_nan x = false.
Proof.
  unfold PrimFloat.is_nan. rewrite leb_spec, FloatAxioms.eqb_spec. unfold SFleb, SFeqb.
  intros Hle. rewrite SFcompare_refl; [reflexivity|].
  intros Hnan. rewrite Hnan in Hle.
  destruct (Prim2SF a); discriminate.
Qed.

Lemma is_number_leb_refl (x : float) :
  PrimFloat.is_nan x = false -> PrimFloat.leb x x = true.
Proof.
  unfold PrimFloat.is_nan. rewrite leb_spec, FloatAxioms.eqb_spec. unfold SFleb, SFeqb.
  destruct (SFcompare (Prim2SF x) (Prim2SF x)) as [[]|]; simpl;
    (discriminate || reflexivity).
Qed.

(** For a number that is not [nan], [x < a] is the negation of [a <= x]
    ([b < a] says that [a] is a number). *)
Lemma ltb_negb_leb (a b x : float) :
  PrimFloat.ltb b a = true ->
  PrimFloat.is_nan x = false ->
  PrimFloat.ltb x a = negb (PrimFloat.leb a x).
Proof.
  intros Ha Hx.
  destruct (PrimFloat.ltb x a) eqn:Hlt.
  - destruct (PrimFloat.leb a x) eqn:Hle; [|reflexivity].
    apply leb_not_ltb in Hle. congruence.
  - rewrite (ltb_false_leb x b a Ha (is_number_leb_refl x Hx) Hlt).
    reflexivity.
Qed.

End MoreFloatFacts.

(** ** More on [validate_input_data] *)

Section MoreValidateFacts.
Import preprocessor.
Context `{StrParsers}.

Lemma for_fields_ext (fields : list string)
    (body body' : string -> res (option verdict)) :
  (forall f, In f fields -> body f = body' f) ->
  for_fields fields body = for_fields fields body'.
Proof.
  induction fields as [|f rest IH]; simpl; intros Hext; [reflexivity|].
  rewrite <- (Hext f) by (left; reflexivity).
  rewrite IH by (intros g Hg; apply Hext; right; assumption).
  reflexivity.
Qed.

(** The verdict is a function of the three loops. *)
Lemma validate_ext (d d' : dict) :
  (forall f, In f required_fields -> required_body d f = required_body d' f) ->
  (forall f, In f numeric_fields -> numeric_body d f = numeric_body d' f) ->
  (forall f, In f dq_fields -> dq_body d f = dq_body d' f) ->
  validate_input_data d = validate_input_data d'.
Proof.
  intros Hr Hn Hq. unfold validate_input_data.
  rewrite (for_fields_ext required_fields _ _ Hr).
  rewrite (for_fields_ext numeric_fields _ _ Hn).
  rewrite (for_fields_ext dq_fields _ _ Hq).
  reflexivity.
Qed.

Lemma NoDup_required_fields : NoDup required_fields.
Proof.
  unfold required_fields.
  repeat (apply NoDup_cons; split;
    [rewrite list_elem_of_In; simpl; intros Hin;
     repeat (destruct Hin as [Hin|Hin]; [discriminate Hin|]); exact Hin|]).
  apply NoDup_nil. exact I.
Qed.

Lemma has_value_delete (d : dict) (k f : string) :
  has_value (delete k d) f = if String.eqb k f then false else has_value d f.
Proof.
  unfold has_value. destruct (String.eqb_spec k f) as [->|Hne].
  - rewrite lookup_delete_eq. reflexivity.
  - rewrite lookup_delete_ne by assumption. reflexivity.
Qed.

Lemma when_present_delete (d : dict) (cond : pyval -> bool) (k f : string) :
  when_present (delete k d) cond f =
  if String.eqb k f then true else when_present d cond f.
Proof.
  unfold when_present. destruct (String.eqb_spec k f) as [->|Hne].
  - rewrite lookup_delete_eq. reflexivity.
  - rewrite lookup_delete_ne by assumption. reflexivity.
Qed.

(** The verdict on an accepted record in which one data-quality value has
    been replaced is the verdict of the range loop on that field. *)
Lemma validate_insert_dq (d : dict) (q : string) (v : pyval) (r : verdict) :
  In q dq_fields ->
  validate_input_data d = Ok (true, "Valid") ->
  dq_body (<[q := v]> d) q = Ok (Some r) ->
  validate_input_data (<[q := v]> d) = Ok r.
Proof.
  intros Hq Hvalid Hbody.
  apply validate_valid_iff in Hvalid as (R & N & Q).
  rewrite forallb_In in R, N, Q.
  destruct (in_split q dq_fields Hq) as (pre & post & Hsplit).
  apply (validate_dq_first _ pre post q); try assumption.
  - apply forallb_In. intros f Hf. rewrite has_value_insert.
    rewrite (dq_fields_apart q f Hq) by (apply in_or_app; left; assumption).
    apply R. assumption.
  - apply forallb_In. intros f Hf. rewrite when_present_insert.
    rewrite (dq_fields_apart q f Hq) by (apply in_or_app; right; assumption).
    apply N. assumption.
  - intros g Hg. rewrite when_present_insert.
    destruct (String.eqb_spec q g) as [<-|_].
    + exfalso. pose proof NoDup_dq_fields as Hnd. rewrite Hsplit in Hnd.
      apply NoDup_app in Hnd as (_ & Hnotin & _).
      apply (Hnotin q); [apply list_elem_of_In; assumption|left].
    + apply Q. rewrite Hsplit. apply in_or_app. left. assumption.
Qed.

End MoreValidateFacts.

(** X1.  When neither the supply factor nor the margin reads as [nan], a
    record is accepted exactly when each of the five required keys has a
    value other than [None], the supply factor and the margin read as
    numbers that are at least zero, and every data-quality key that is
    present reads as a number between 0.0 and 1.0, bounds included. *)
Theorem validate_accepts_exactly `{StrParsers} (input_data : dict) :
  (forall f v x, In f preprocessor.numeric_fields ->
     input_data !! f = Some v -> py_float v = Ok x ->
     PrimFloat.is_nan x = false) ->
  preprocessor.validate_input_data input_data = Ok (true, "Valid") <->
  (forall f, In f preprocessor.required_fields ->
     exists v, input_data !! f = Some v /\ v <> PyNone) /\
  (forall f v, In f preprocessor.numeric_fields -> input_data !! f = Some v ->
     exists x, py_float v = Ok x /\ PrimFloat.leb 0%float x = true) /\
  (forall f v, In f preprocessor.dq_fields -> input_data !! f = Some v ->
     exists x, py_float v = Ok x /\
               PrimFloat.leb 0%float x = true /\ PrimFloat.leb x 1%float = true).
Proof.
  intros Hnum.
  rewrite validate_valid_iff_numbers.
  2:{ intros f v x Hf Hv Hx. apply is_number_leb_refl. eauto. }
  rewrite !forallb_In.
  split; intros (R & N & Q); repeat split.
  - intros f Hf. specialize (R f Hf). unfold has_value in R.
    destruct (input_data !! f) as [v|]; [|discriminate].
    exists v. split; [reflexivity|]. intros ->. discriminate.
  - intros f v Hf Hv. specialize (N f Hf).
    unfold when_present, parses_nonneg in N. rewrite Hv in N.
    destruct (py_float v) as [x|]; [eauto|discriminate].
  - intros f v Hf Hv. specialize (Q f Hf).
    unfold when_present, parses_in_unit in Q. rewrite Hv in Q.
    destruct (py_float v) as [x|]; [|discriminate].
    apply andb_true_iff in Q. eauto.
  - intros f Hf. destruct (R f Hf) as (v & Hv & Hnn).
    unfold has_value. rewrite Hv. destruct v; congruence.
  - intros f Hf. unfold when_present, parses_nonneg.
    destruct (input_data !! f) as [v|] eqn:Hv; [|reflexivity].
    destruct (N f v Hf Hv) as (x & -> & Hx). assumption.
  - intros f Hf. unfold when_present, parses_in_unit.
    destruct (input_data !! f) as [v|] eqn:Hv; [|reflexivity].
    destruct (Q f v Hf Hv) as (x & -> & H0 & H1). rewrite H0, H1. reflexivity.
Qed.

(** The record of [simple_test.py] is accepted. *)
Lemma validate_accepts_exactly_witness :
  preprocessor.validate_input_data (H := example_parsers)
    simple_test.input_data = Ok (true, "Valid").
Proof.
  apply (validate_accepts_exactly (H := example_parsers) simple_test.input_data).
  - simpl. intros f v x [<-|[<-|[]]] Hv Hx;
      vm_compute in Hv; inversion Hv; subst v;
      simpl in Hx; inversion Hx; subst x; reflexivity.
  - repeat split.
    + simpl. intros f Hf.
      repeat (destruct Hf as [<-|Hf];
              [eexists; split; [vm_compute; reflexivity|discriminate]|]).
      destruct Hf.
    + simpl. intros f v [<-|[<-|[]]] Hv;
        vm_compute in Hv; inversion Hv; subst v;
        eexists; split; reflexivity.
    + simpl. intros f v Hf Hv.
      repeat (destruct Hf as [<-|Hf];
              [vm_compute in Hv; inversion Hv; subst v;
               eexists; repeat split; reflexivity|]).
      destruct Hf.
Defined.

(** X2.  [validate_input_data] reads nothing but the ten fields, and of
    Substance, Unit and Source only whether they are [None]: giving any
    value other than [None] to a key that is neither the supply factor,
    the margin nor a data-quality field leaves the verdict as it was,
    provided the key, if required, had a value before. *)
Theorem validate_ignores_unchecked_values `{StrParsers}
    (input_data : dict) (k : string) (v : pyval) :
  ~ In k preprocessor.numeric_fields ->
  ~ In k preprocessor.dq_fields ->
  v <> PyNone ->
  (In k preprocessor.required_fields -> has_value input_data k = true) ->
  preprocessor.validate_input_data (<[k := v]> input_data) =
  preprocessor.validate_input_data input_data.
Proof.
  intros Hnum Hdq Hv Hreq. apply validate_ext.
  - intros f Hf. unfold preprocessor.required_body.
    destruct (String.eqb_spec k f) as [->|Hne].
    + specialize (Hreq Hf). unfold has_value in Hreq.
      rewrite lookup_insert_eq.
      destruct (input_data !! f) as [[| | |]|]; try discriminate;
        destruct v; congruence.
    + rewrite lookup_insert_ne by assumption. reflexivity.
  - intros f Hf. unfold preprocessor.numeric_body.
    rewrite lookup_insert_ne; [reflexivity|]. intros ->. contradiction.
  - intros f Hf. unfold preprocessor.dq_body.
    rewrite lookup_insert_ne; [reflexivity|]. intros ->. contradiction.
Qed.

(** A substance that is no string, and a key of no field. *)
Lemma validate_ignores_unchecked_values_witness :
  preprocessor.validate_input_data (H := example_parsers)
    (<["Substance" := PyFloat 12]> simple_test.input_data) = Ok (true, "Valid") /\
  preprocessor.validate_input_data (H := example_parsers)
    (<["Year" := PyInt 2018]> simple_test.input_data) = Ok (true, "Valid").
Proof.
  split.
  - rewrite (validate_ignores_unchecked_values (H := example_parsers)
               simple_test.input_data "Substance" (PyFloat 12)).
    + reflexivity.
    + simpl. intros [Hk|[Hk|[]]]; discriminate Hk.
    + simpl. intros Hk.
      repeat (destruct Hk as [Hk|Hk]; [discriminate Hk|]). exact Hk.
    + discriminate.
    + intros _. reflexivity.
  - rewrite (validate_ignores_unchecked_values (H := example_parsers)
               simple_test.input_data "Year" (PyInt 2018)).
    + reflexivity.
    + simpl. intros [Hk|[Hk|[]]]; discriminate Hk.
    + simpl. intros Hk.
      repeat (destruct Hk as [Hk|Hk]; [discriminate Hk|]). exact Hk.
    + discriminate.
    + simpl. intros Hk.
      repeat (destruct Hk as [Hk|Hk]; [discriminate Hk|]). destruct Hk.
Defined.

(** X3.  An [OverflowError] is not among the exceptions the numeric check
    catches: when the five required keys have values and the supply factor
    is an integer too large for a binary64 number, [validate_input_data]
    returns no verdict and the exception escapes. *)
Theorem validate_raises_overflow `{StrParsers} (input_data : dict) (z : Z) :
  forallb (has_value input_data) preprocessor.required_fields = true ->
  input_data !! "Supply Chain Emission Factors without Margins" = Some (PyInt z) ->
  is_inf (float_of_Z z) = true ->
  preprocessor.validate_input_data input_data = Raise OverflowError.
Proof.
  intros Hreq Hz Hinf. unfold preprocessor.validate_input_data.
  rewrite (proj2 (for_fields_none preprocessor.required_fields
                    (preprocessor.required_body input_data))).
  2:{ intros g Hg. apply required_body_none.
      apply (proj1 (forallb_In _ _) Hreq). assumption. }
  unfold preprocessor.numeric_fields. cbn [preprocessor.for_fields].
  unfold preprocessor.numeric_body at 1. rewrite Hz. simpl py_float.
  rewrite Hinf. reflexivity.
Qed.

(** The supply factor [10 ** 400]. *)
Lemma validate_raises_overflow_witness :
  preprocessor.validate_input_data (H := example_parsers)
    (<["Supply Chain Emission Factors without Margins" := PyInt (10 ^ 400)]>
       simple_test.input_data) = Raise OverflowError.
Proof.
  apply (validate_raises_overflow (H := example_parsers) _ (10 ^ 400));
    vm_compute; reflexivity.
Defined.

(** X4.  Replacing a data-quality score of an accepted record by a value
    that reads as a number outside [[0.0, 1.0]] makes the record rejected
    with the range message of that field; replacing it by a value that
    [float] refuses with [ValueError] or [TypeError] ([None] included)
    makes it rejected with the "must be numeric" message of that field. *)
Theorem validate_rejects_bad_dq `{StrParsers}
    (input_data : dict) (q : string) (v : pyval) :
  In q preprocessor.dq_fields ->
  preprocessor.validate_input_data input_data = Ok (true, "Valid") ->
  (forall x, py_float v = Ok x ->
     PrimFloat.leb 0%float x && PrimFloat.leb x 1%float = false ->
     preprocessor.validate_input_data (<[q := v]> input_data) =
     Ok (false, "DQ field must be between 0 and 1: " +:+ q)) /\
  (py_float v = Raise ValueError \/ py_float v = Raise TypeError ->
     preprocessor.validate_input_data (<[q := v]> input_data) =
     Ok (false, "DQ field must be numeric: " +:+ q)).
Proof.
  intros Hq Hvalid. split.
  - intros x Hx Hrange. apply validate_insert_dq; try assumption.
    unfold preprocessor.dq_body. rewrite lookup_insert_eq, Hx, Hrange.
    reflexivity.
  - intros Hraise. apply validate_insert_dq; try assumption.
    unfold preprocessor.dq_body. rewrite lookup_insert_eq.
    destruct Hraise as [-> | ->]; reflexivity.
Qed.

(** A reliability score of 1.5, and one that is [None]. *)
Lemma validate_rejects_bad_dq_witness :
  preprocessor.validate_input_data (H := example_parsers)
    (<["DQ ReliabilityScore of Factors without Margins" := PyFloat 1.5]>
       simple_test.input_data) =
  Ok (false, "DQ field must be between 0 and 1: DQ ReliabilityScore of Factors without Margins") /\
  preprocessor.validate_input_data (H := example_parsers)
    (<["DQ ReliabilityScore of Factors without Margins" := PyNone]>
       simple_test.input_data) =
  Ok (false, "DQ field must be numeric: DQ ReliabilityScore of Factors without Margins").
Proof.
  split.
  - apply (proj1 (validate_rejects_bad_dq (H := example_parsers)
             simple_test.input_data
             "DQ ReliabilityScore of Factors without Margins" (PyFloat 1.5)
             (or_introl eq_refl) eq_refl) 1.5%float); reflexivity.
  - apply (proj2 (validate_rejects_bad_dq (H := example_parsers)
             simple_test.input_data
             "DQ ReliabilityScore of Factors without Margins" PyNone
             (or_introl eq_refl) eq_refl)).
    right. reflexivity.
Defined.

(** X5.  Removing a data-quality key from an accepted record leaves it
    accepted; removing one of the five required keys makes it rejected
    with "Missing required field: " followed by that key. *)
Theorem validate_after_delete `{StrParsers} (input_data : dict) (k : string) :
  preprocessor.validate_input_data input_data = Ok (true, "Valid") ->
  (In k preprocessor.dq_fields ->
     preprocessor.validate_input_data (delete k input_data) = Ok (true, "Valid")) /\
  (In k preprocessor.required_fields ->
     preprocessor.validate_input_data (delete k input_data) =
     Ok (false, "Missing required field: " +:+ k)).
Proof.
  intros Hvalid.
  apply validate_valid_iff in Hvalid as (R & N & Q).
  rewrite forallb_In in R, N, Q. split.
  - intros Hk. apply validate_valid_iff. rewrite !forallb_In.
    repeat split; intros f Hf.
    + rewrite has_value_delete.
      rewrite (dq_fields_apart k f Hk) by (apply in_or_app; left; assumption).
      apply R. assumption.
    + rewrite when_present_delete.
      rewrite (dq_fields_apart k f Hk) by (apply in_or_app; right; assumption).
      apply N. assumption.
    + rewrite when_present_delete. destruct (String.eqb k f); [reflexivity|].
      apply Q. assumption.
  - intros Hk.
    destruct (in_split k preprocessor.required_fields Hk) as (pre & post & Hsplit).
    apply (validate_required_first _ pre post k); [assumption| |].
    + intros g Hg. rewrite has_value_delete.
      destruct (String.eqb_spec k g) as [<-|_].
      * exfalso. pose proof NoDup_required_fields as Hnd. rewrite Hsplit in Hnd.
        apply NoDup_app in Hnd as (_ & Hnotin & _).
        apply (Hnotin k); [apply list_elem_of_In; assumption|left].
      * apply R. rewrite Hsplit. apply in_or_app. left. assumption.
    + unfold preprocessor.required_body. rewrite lookup_delete_eq. reflexivity.
Qed.

(** The record of [simple_test.py] without a score, and without its unit. *)
Lemma validate_after_delete_witness :
  preprocessor.validate_input_data (H := example_parsers)
    (delete "DQ TemporalCorrelation of Factors without Margins"
       simple_test.input_data) = Ok (true, "Valid") /\
  preprocessor.validate_input_data (H := example_parsers)
    (delete "Unit" simple_test.input_data) =
  Ok (false, "Missing required field: Unit").
Proof.
  split.
  - apply (proj1 (validate_after_delete (H := example_parsers)
             simple_test.input_data
             "DQ TemporalCorrelation of Factors without Margins" eq_refl)).
    simpl. tauto.
  - apply (proj2 (validate_after_delete (H := example_parsers)
             simple_test.input_data "Unit" eq_refl)).
    simpl. tauto.
Defined.

(** ** More on [preprocessor.preprocess_input] *)

Section MoreRunFacts.
Import pd pandas preprocessor columnwise.
Context `{StrParsers}.

Lemma run_frame_preprocess_input_cases (d : DataFrame) :
  run_frame preprocess_input d =
  if numeric_cells_convert d then Ok (output_frame d) else Raise OverflowError.
Proof.
  unfold run_frame.
  destruct (run_preprocess_input_cases [d] 0%nat d eq_refl) as [d' ->].
  destruct (numeric_cells_convert d); reflexivity.
Qed.

Lemma run_frame_preprocess_input (d : DataFrame) :
  numeric_cells_convert d = true ->
  run_frame preprocess_input d = Ok (output_frame d).
Proof.
  intros Hconv. rewrite run_frame_preprocess_input_cases, Hconv. reflexivity.
Qed.



Lemma df_get_output_frame (d : DataFrame) (c : string) :
  In c expected_columns ->
  df_get c (output_frame d) = Some (final_cell c (df_get c d)).
Proof.
  simpl. intros Hc.
  repeat (destruct Hc as [<-|Hc]; [reflexivity|]). destruct Hc.
Qed.

Lemma lookup_map {A B} (f : A -> B) (l : list A) (i : nat) :
  map f l !! i = option_map f (l !! i).
Proof.
  revert i. induction l as [|a l IH]; intros [|i]; simpl; try reflexivity.
  apply IH.
Qed.

Lemma values_output_frame (d : DataFrame) (i : nat) (c : string) :
  expected_columns !! i = Some c ->
  values (output_frame d) !! i = Some (final_cell c (df_get c d)).
Proof.
  intros Hi. unfold values, output_frame.
  rewrite map_map, lookup_map, Hi. reflexivity.
Qed.

Lemma to_numeric_str_in_range (s : string) (z : Z) :
  to_numeric_str s = Some (NInt z) -> fits_int64_or_uint64 z = true.
Proof.
  intros Hs. apply to_numeric_str_fits in Hs. unfold fits_int64_or_uint64.
  apply andb_true_iff. split; [apply Z.leb_le|apply Z.ltb_lt]; lia.
Qed.

(** What [coerce] has produced, [to_numeric] reads again, as the same
    number. *)
Lemma coerce_converts (x : pyval) :
  converts x = true -> converts (coerce x) = true /\ coerce (coerce x) = coerce x.
Proof.
  assert (forall f, converts (coerce (PyFloat f)) = true /\
                    coerce (coerce (PyFloat f)) = coerce (PyFloat f)) as Hf.
  { intros f. unfold coerce, converts, to_numeric_coerce, fillna.
    destruct (PrimFloat.is_nan f) eqn:E; [split; reflexivity|].
    rewrite E. split; reflexivity. }
  assert (forall z, fits_int64_or_uint64 z = true ->
                    converts (PyInt z) = true /\
                    coerce (PyInt z) = PyInt z) as Hz.
  { intros z Hfit. unfold coerce, converts, to_numeric_coerce.
    rewrite Hfit. split; reflexivity. }
  assert (forall a b, coerce a = coerce b ->
                      converts (coerce b) = true /\
                      coerce (coerce b) = coerce b ->
                      converts (coerce a) = true /\
                      coerce (coerce a) = coerce a) as Hvia.
  { intros a b ->. tauto. }
  destruct x as [|s|f|z].
  - intros _. split; reflexivity.
  - intros _.
    destruct (to_numeric_str s) as [[z|f]|] eqn:Hs.
    + apply to_numeric_str_in_range in Hs as Hfit.
      apply (Hvia _ (PyInt z)).
      { unfold coerce, to_numeric_coerce. rewrite Hs, Hfit. reflexivity. }
      destruct (Hz z Hfit) as [Hc Hi]. rewrite !Hi. split; [exact Hc|reflexivity].
    + apply (Hvia _ (PyFloat f)); [|apply Hf].
      unfold coerce, to_numeric_coerce. rewrite Hs. reflexivity.
    + apply (Hvia _ (PyFloat nan)); [|apply Hf].
      unfold coerce, to_numeric_coerce. rewrite Hs. reflexivity.
  - intros _. apply Hf.
  - unfold converts at 1. simpl.
    destruct (fits_int64_or_uint64 z) eqn:Hfit.
    + intros _. destruct (Hz z Hfit) as [Hc Hi]. rewrite !Hi. split; [exact Hc|reflexivity].
    + destruct (is_inf (float_of_Z z)) eqn:Hinf; [discriminate|]. intros _.
      apply (Hvia _ (PyFloat (float_of_Z z))); [|apply Hf].
      unfold coerce, to_numeric_coerce. rewrite Hfit, Hinf. reflexivity.
Qed.

(** [to_numeric] returns on every numeric cell of a frame that
    [preprocess_input] has returned. *)
Lemma output_frame_converts (d : DataFrame) :
  numeric_cells_convert d = true ->
  numeric_cells_convert (output_frame d) = true.
Proof.
  intros Hconv. unfold numeric_cells_convert in *.
  rewrite forallb_In in Hconv. apply forallb_In. intros c Hc.
  unfold cell_converts.
  rewrite df_get_output_frame by (simpl in Hc; simpl; tauto).
  rewrite final_cell_numeric by assumption.
  apply coerce_converts.
  specialize (Hconv c Hc). unfold cell_converts in Hconv.
  destruct (df_get c d) as [x|]; [exact Hconv|reflexivity].
Qed.

End MoreRunFacts.




(** X8.  Preprocessing is not idempotent on frames: fed with the frame it
    has returned, [preprocess_input] returns again, but it finds integer
    codes where it expects labels, treats them as unseen values and
    replaces every substance code by 0, every unit code by 1 and every
    source code by 0; the seven numeric cells stay as they are. *)
Theorem preprocess_input_twice `{StrParsers} (d out1 : pd.DataFrame) :
  run_frame preprocessor.preprocess_input d = Ok out1 ->
  exists out2,
    run_frame preprocessor.preprocess_input out1 = Ok out2 /\
    pd.values out2 !! 0%nat = Some (PyInt 0) /\
    pd.values out2 !! 1%nat = Some (PyInt 1) /\
    pd.values out2 !! 9%nat = Some (PyInt 0) /\
    forall i, (2 <= i <= 8)%nat -> pd.values out2 !! i = pd.values out1 !! i.
Proof.
  rewrite run_frame_preprocess_input_cases.
  destruct (columnwise.numeric_cells_convert d) eqn:Hconv; [|discriminate].
  intros Hout. inversion Hout. subst out1. clear Hout.
  exists (columnwise.output_frame (columnwise.output_frame d)).
  split; [apply run_frame_preprocess_input, output_frame_converts; exact Hconv|].
  split.
  { rewrite (values_output_frame _ 0 "Substance" eq_refl).
    rewrite df_get_output_frame by (simpl; tauto). reflexivity. }
  split.
  { rewrite (values_output_frame _ 1 "Unit" eq_refl).
    rewrite df_get_output_frame by (simpl; tauto). reflexivity. }
  split.
  { rewrite (values_output_frame _ 9 "Source" eq_refl).
    rewrite df_get_output_frame by (simpl; tauto). reflexivity. }
  intros i Hi.
  assert (exists c, preprocessor.expected_columns !! i = Some c /\
                    In c preprocessor.numeric_columns) as (c & Hc & Hnum).
  { do 2 (destruct i as [|i]; [lia|]).
    do 7 (destruct i as [|i]; [eexists; split; [reflexivity|simpl; tauto]|]).
    lia. }
  assert (In c preprocessor.expected_columns) as Hexp.
  { apply list_elem_of_In. eapply list_elem_of_lookup_2. exact Hc. }
  rewrite (values_output_frame _ i c Hc), (values_output_frame d i c Hc).
  rewrite df_get_output_frame by assumption.
  rewrite !final_cell_numeric by assumption. simpl default.
  apply f_equal, coerce_converts.
  unfold columnwise.numeric_cells_convert in Hconv.
  rewrite forallb_In in Hconv. specialize (Hconv c Hnum).
  unfold columnwise.cell_converts in Hconv.
  destruct (pd.df_get c d) as [x|]; [exact Hconv|reflexivity].
Qed.

(** The frame of the record of [simple_test.py], whose codes 0, 1 and 1
    become 0, 1 and 0. *)
Lemma preprocess_input_twice_witness :
  exists out1 out2,
    run_frame (preprocessor.preprocess_input (H := example_parsers))
      (pd.of_record simple_test.input_data) = Ok out1 /\
    run_frame (preprocessor.preprocess_input (H := example_parsers)) out1
      = Ok out2 /\
    pd.values out1 !! 9%nat = Some (PyInt 1) /\
    pd.values out2 !! 9%nat = Some (PyInt 0).
Proof.
  eexists.
  destruct (preprocess_input_twice (H := example_parsers)
              (pd.of_record simple_test.input_data) _ eq_refl)
    as (out2 & Hrun & _ & _ & Hsrc & _).
  exists out2. split; [reflexivity|]. split; [exact Hrun|].
  split; [reflexivity|exact Hsrc].
Defined.

(** X9.  A [nan] supply factor or margin is accepted by
    [validate_input_data] and then silently becomes 0.0 in the vector that
    [preprocess_input] computes: for an accepted record, replacing either
    field by [nan] leaves the record accepted and puts 0.0 at position 2
    (supply factor) or 3 (margin). *)
Theorem nan_is_accepted_then_zeroed `{StrParsers} (input_data : dict) :
  preprocessor.validate_input_data input_data = Ok (true, "Valid") ->
  forall i k,
    In (i, k) [ (2%nat, "Supply Chain Emission Factors without Margins");
                (3%nat, "Margins of Supply Chain Emission Factors") ] ->
    preprocessor.validate_input_data (<[k := PyFloat nan]> input_data)
      = Ok (true, "Valid") /\
    exists row,
      run_on preprocessor.preprocess_input
        (pd.of_record (<[k := PyFloat nan]> input_data)) = Ok row /\
      row !! i = Some (PyFloat 0%float).
Proof.
  intros Hvalid i k Hik.
  assert (In k preprocessor.numeric_fields /\
          preprocessor.expected_columns !! i = Some k /\
          In k preprocessor.numeric_columns) as (Hk & Hi & Hnum).
  { simpl in Hik. destruct Hik as [Hik|[Hik|[]]]; inversion Hik; subst;
      repeat split; simpl; tauto. }
  split.
  - apply validate_insert_numeric_nan; [assumption|assumption|reflexivity].
  - eexists.
    split; [apply run_on_preprocess_input, valid_record_converts,
              validate_insert_numeric_nan;
            [assumption|assumption|reflexivity]|].
    rewrite (values_output_frame _ i k Hi), df_get_of_record, lookup_insert_eq.
    rewrite final_cell_numeric by assumption. reflexivity.
Qed.

(** The record of [simple_test.py] with a [nan] margin. *)
Lemma nan_is_accepted_then_zeroed_witness :
  preprocessor.validate_input_data (H := example_parsers)
    (<["Margins of Supply Chain Emission Factors" := PyFloat nan]>
       simple_test.input_data) = Ok (true, "Valid") /\
  exists row,
    run_on (preprocessor.preprocess_input (H := example_parsers))
      (pd.of_record
         (<["Margins of Supply Chain Emission Factors" := PyFloat nan]>
            simple_test.input_data)) = Ok row /\
    row !! 3%nat = Some (PyFloat 0%float).
Proof.
  apply (nan_is_accepted_then_zeroed (H := example_parsers)
           simple_test.input_data eq_refl 3%nat
           "Margins of Supply Chain Emission Factors").
  simpl. tauto.
Defined.

(** ** More on [simple_test.preprocess_input] *)

Section MoreSimpleTestFacts.
Import pd pandas.
Local Open Scope py_scope.




Lemma map_dict_unseen :
  (forall x, preprocessor.py_in x substance_vocabulary = false ->
             map_dict simple_test.substance_map x = PyFloat nan) /\
  (forall x, preprocessor.py_in x unit_vocabulary = false ->
             map_dict simple_test.unit_map x = PyFloat nan) /\
  (forall x, preprocessor.py_in x source_vocabulary = false ->
             map_dict simple_test.source_map x = PyFloat nan).
Proof.
  repeat split; intros [|s|f|z] Hx; try reflexivity;
    simpl in Hx; rewrite !orb_false_iff in Hx;
    unfold map_dict, simple_test.substance_map, simple_test.unit_map,
           simple_test.source_map;
    rewrite !lookup_insert_ne
      by (intros <-; rewrite String.eqb_refl in Hx; intuition discriminate);
    rewrite lookup_empty; reflexivity.
Qed.

End MoreSimpleTestFacts.



(** X11.  For a record that has all ten keys, [preprocess_input] of
    [simple_test.py] maps a substance, unit or source outside its
    vocabulary to [nan], where [utils/preprocessor.py] substitutes the
    code of the first label. *)
Theorem simple_test_unseen_is_nan (input_data : dict) :
  (forall c, In c simple_test.expected_columns -> is_Some (input_data !! c)) ->
  exists row,
    run_on simple_test.preprocess_input (pd.of_record input_data) = Ok row /\
    (forall x, input_data !! "Substance" = Some x ->
               preprocessor.py_in x substance_vocabulary = false ->
               row !! 0%nat = Some (PyFloat nan)) /\
    (forall x, input_data !! "Unit" = Some x ->
               preprocessor.py_in x unit_vocabulary = false ->
               row !! 1%nat = Some (PyFloat nan)) /\
    (forall x, input_data !! "Source" = Some x ->
               preprocessor.py_in x source_vocabulary = false ->
               row !! 9%nat = Some (PyFloat nan)).
Proof.
  intros Hall.
  destruct (Hall "Substance") as [xs Hs]; [simpl; tauto|].
  destruct (Hall "Unit") as [xu Hu]; [simpl; tauto|].
  destruct (Hall "Supply Chain Emission Factors without Margins")
    as [x1 H1]; [simpl; tauto|].
  destruct (Hall "Margins of Supply Chain Emission Factors")
    as [x2 H2]; [simpl; tauto|].
  destruct (Hall "DQ ReliabilityScore of Factors without Margins")
    as [x3 H3]; [simpl; tauto|].
  destruct (Hall "DQ TemporalCorrelation of Factors without Margins")
    as [x4 H4]; [simpl; tauto|].
  destruct (Hall "DQ GeographicalCorrelation of Factors without Margins")
    as [x5 H5]; [simpl; tauto|].
  destruct (Hall "DQ TechnologicalCorrelation of Factors without Margins")
    as [x6 H6]; [simpl; tauto|].
  destruct (Hall "DQ DataCollection of Factors without Margins")
    as [x7 H7]; [simpl; tauto|].
  destruct (Hall "Source") as [xo Ho]; [simpl; tauto|].
  destruct map_dict_unseen as (Msub & Munit & Msrc).
  eexists. split; [eapply run_on_simple_preprocess_input; eassumption|].
  repeat split; intros x Hx Hout; cbn [lookup list_lookup].
  - rewrite Hs in Hx. inversion Hx; subst. rewrite Msub by assumption. reflexivity.
  - rewrite Hu in Hx. inversion Hx; subst. rewrite Munit by assumption. reflexivity.
  - rewrite Ho in Hx. inversion Hx; subst. rewrite Msrc by assumption. reflexivity.
Qed.

(** The record of [simple_test.py] with the substance "xenon". *)
Lemma simple_test_unseen_is_nan_witness :
  exists row,
    run_on simple_test.preprocess_input
      (pd.of_record (<["Substance" := PyStr "xenon"]> simple_test.input_data))
      = Ok row /\
    row !! 0%nat = Some (PyFloat nan).
Proof.
  destruct (simple_test_unseen_is_nan
              (<["Substance" := PyStr "xenon"]> simple_test.input_data))
    as (row & Hrun & Hsub & _).
  - simpl. intros c Hc.
    repeat (destruct Hc as [<-|Hc]; [vm_compute; eauto|]). destruct Hc.
  - exists row. split; [exact Hrun|].
    apply (Hsub (PyStr "xenon")); reflexivity.
Defined.

(** ** The order of binary64 numbers *)

Section OrderFacts.

Lemma SFleb_trans (x y z : spec_float) :
  SFleb x y = true -> SFleb y z = true -> SFleb x z = true.
Proof.
  unfold SFleb.
  destruct x as [sx|sx| |sx mx ex], y as [sy|sy| |sy my ey],
           z as [sz|sz| |sz mz ez]; simpl;
    try discriminate; try reflexivity;
    try (destruct sx; simpl; try discriminate; try reflexivity);
    try (destruct sy; simpl; try discriminate; try reflexivity);
    try (destruct sz; simpl; try discriminate; try reflexivity).
  all: change (Pos.compare_cont Eq) with Pos.compare.
  all: repeat match goal with
       | |- context [Z.compare ?a ?b] => destruct (Z.compare_spec a b)
       | |- context [Pos.compare ?a ?b] => destruct (Pos.compare_spec a b)
       end; simpl; try discriminate; try reflexivity; intros; try lia.
Qed.

Lemma SFltb_leb_trans (x y z : spec_float) :
  SFltb x y = true -> SFleb y z = true -> SFltb x z = true.
Proof.
  unfold SFltb, SFleb.
  destruct x as [sx|sx| |sx mx ex], y as [sy|sy| |sy my ey],
           z as [sz|sz| |sz mz ez]; simpl;
    try discriminate; try reflexivity;
    try (destruct sx; simpl; try discriminate; try reflexivity);
    try (destruct sy; simpl; try discriminate; try reflexivity);
    try (destruct sz; simpl; try discriminate; try reflexivity).
  all: change (Pos.compare_cont Eq) with Pos.compare.
  all: repeat match goal with
       | |- context [Z.compare ?a ?b] => destruct (Z.compare_spec a b)
       | |- context [Pos.compare ?a ?b] => destruct (Pos.compare_spec a b)
       end; simpl; try discriminate; try reflexivity; intros; try lia.
Qed.

Lemma leb_trans (a b c : float) :
  PrimFloat.leb a b = true -> PrimFloat.leb b c = true ->
  PrimFloat.leb a c = true.
Proof. rewrite !leb_spec. apply SFleb_trans. Qed.

Lemma ltb_leb_trans (a b c : float) :
  PrimFloat.ltb a b = true -> PrimFloat.leb b c = true ->
  PrimFloat.ltb a c = true.
Proof. rewrite !ltb_spec, leb_spec. apply SFltb_leb_trans. Qed.

Lemma ltb_left_is_number (x a : float) :
  PrimFloat.ltb x a = true -> PrimFloat.is_nan x = false.
Proof.
  unfold PrimFloat.is_nan. rewrite ltb_spec, FloatAxioms.eqb_spec.
  unfold SFltb, SFeqb.
  intros Hlt. rewrite SFcompare_refl; [reflexivity|].
  intros Hnan. rewrite Hnan in Hlt. discriminate.
Qed.

End OrderFacts.

(** ** More on [app.py] *)

(** X12.  The labels are monotone in the prediction: a prediction that is
    at least as large as another one never gets a lower impact label
    (Low, then Medium, then High). *)
Theorem impact_level_monotone (p p' : float) :
  PrimFloat.leb p p' = true ->
  (impact_rank (app.impact_level p) <= impact_rank (app.impact_level p'))%nat.
Proof.
  intros Hle. unfold app.impact_level.
  destruct (PrimFloat.ltb 0.1 p) eqn:Hhigh.
  - rewrite (ltb_leb_trans _ _ _ Hhigh Hle). reflexivity.
  - destruct (PrimFloat.ltb 0.05 p) eqn:Hmed.
    + rewrite (ltb_leb_trans _ _ _ Hmed Hle).
      destruct (PrimFloat.ltb 0.1 p'); vm_compute; lia.
    + change (impact_rank "Low") with 0%nat. lia.
Qed.

(** The predictions 0.07 and 0.2. *)
Lemma impact_level_monotone_witness :
  (impact_rank (app.impact_level 0.07) <= impact_rank (app.impact_level 0.2))%nat.
Proof. apply impact_level_monotone. reflexivity. Defined.

(** X13.  The quality status follows the thresholds 0.8, 0.6 and 0.4: an
    overall quality of at least 0.8 is "Excellent", one of at least 0.6
    and below 0.8 is "Good", one of at least 0.4 and below 0.6 is "Fair",
    every other one is "Poor": those below 0.4, and [nan].  The status is
    monotone in the overall quality (Poor, Fair, Good, Excellent). *)
Theorem quality_status_monotone (q q' : float) :
  app.quality_status q =
    (if PrimFloat.leb 0.8%float q then "Excellent"
     else if PrimFloat.leb 0.6%float q && PrimFloat.ltb q 0.8%float then "Good"
     else if PrimFloat.leb 0.4%float q && PrimFloat.ltb q 0.6%float then "Fair"
     else "Poor")
  /\ (PrimFloat.ltb q 0.4%float = true -> app.quality_status q = "Poor")
  /\ (PrimFloat.leb q q' = true ->
      (quality_rank (app.quality_status q) <=
       quality_rank (app.quality_status q'))%nat)
  /\ app.quality_status nan = "Poor".
Proof.
  split; [|split; [|split; [|reflexivity]]].
  - unfold app.quality_status.
    destruct (PrimFloat.leb 0.8 q) eqn:H8; [reflexivity|].
    destruct (PrimFloat.leb 0.6 q) eqn:H6.
    { rewrite (ltb_negb_leb 0.8 0 q eq_refl (leb_is_number _ _ H6)), H8.
      reflexivity. }
    destruct (PrimFloat.leb 0.4 q) eqn:H4; [|reflexivity].
    rewrite (ltb_negb_leb 0.6 0 q eq_refl (leb_is_number _ _ H4)), H6.
    reflexivity.
  - intros Hlow. unfold app.quality_status.
    assert (PrimFloat.leb 0.4 q = false) as H4.
    { destruct (PrimFloat.leb 0.4 q) eqn:E; [|reflexivity].
      apply leb_not_ltb in E. congruence. }
    assert (PrimFloat.leb 0.6 q = false) as H6.
    { destruct (PrimFloat.leb 0.6 q) eqn:E; [|reflexivity].
      rewrite (leb_trans 0.4 0.6 q eq_refl E) in H4. discriminate. }
    assert (PrimFloat.leb 0.8 q = false) as H8.
    { destruct (PrimFloat.leb 0.8 q) eqn:E; [|reflexivity].
      rewrite (leb_trans 0.6 0.8 q eq_refl E) in H6. discriminate. }
    rewrite H8, H6, H4. reflexivity.
  - intros Hle. unfold app.quality_status.
    destruct (PrimFloat.leb 0.8 q) eqn:H8.
    { rewrite (leb_trans _ _ _ H8 Hle). reflexivity. }
    destruct (PrimFloat.leb 0.6 q) eqn:H6.
    { rewrite (leb_trans _ _ _ H6 Hle).
      destruct (PrimFloat.leb 0.8 q'); vm_compute; lia. }
    destruct (PrimFloat.leb 0.4 q) eqn:H4.
    { rewrite (leb_trans _ _ _ H4 Hle).
      destruct (PrimFloat.leb 0.8 q'); [vm_compute; lia|].
      destruct (PrimFloat.leb 0.6 q'); vm_compute; lia. }
    change (quality_rank "Poor") with 0%nat. lia.
Qed.

(** X14.  The list of recommendations has three entries, or four: the
    advice to improve data collection is in the list exactly when the
    overall quality is below 0.6.  For a quality that is a number this is
    exactly when the status is "Fair" or "Poor"; a [nan] quality is rated
    "Poor" and gets no such advice. *)
Theorem recommendations_follow_quality (impact_level : string) (q : float) :
  let recs := app.recommendations impact_level q in
  let advice := "📈 Improve data collection methods for better accuracy" in
  (length recs = if PrimFloat.ltb q 0.6%float then 4%nat else 3%nat) /\
  (In advice recs <-> PrimFloat.ltb q 0.6%float = true) /\
  (PrimFloat.is_nan q = false ->
   (In advice recs <->
    app.quality_status q = "Fair" \/ app.quality_status q = "Poor")) /\
  (PrimFloat.is_nan q = true ->
   app.quality_status q = "Poor" /\ ~ In advice recs).
Proof.
  intros recs advice.
  assert (length recs = if PrimFloat.ltb q 0.6 then 4%nat else 3%nat) as Hlen.
  { unfold recs, app.recommendations. rewrite length_app.
    destruct (String.eqb impact_level "High");
      [|destruct (String.eqb impact_level "Medium")];
      destruct (PrimFloat.ltb q 0.6); reflexivity. }
  assert (In advice recs <-> PrimFloat.ltb q 0.6 = true) as Hin.
  { unfold recs, app.recommendations. rewrite in_app_iff.
    destruct (PrimFloat.ltb q 0.6); split; intros Hx; try reflexivity.
    - right. left. reflexivity.
    - destruct Hx as [Hx|[]].
      destruct (String.eqb impact_level "High");
        [|destruct (String.eqb impact_level "Medium")];
        simpl in Hx; intuition discriminate.
    - discriminate. }
  split; [exact Hlen|]. split; [exact Hin|]. split.
  - intros Hnum. rewrite Hin.
    rewrite (ltb_negb_leb 0.6 0 q eq_refl Hnum).
    unfold app.quality_status.
    destruct (PrimFloat.leb 0.6 q) eqn:H6; simpl.
    + destruct (PrimFloat.leb 0.8 q); split; intros Hx;
        try discriminate; destruct Hx; discriminate.
    + destruct (PrimFloat.leb 0.8 q) eqn:H8.
      * assert (PrimFloat.leb 0.6 q = true) as Hcontra
          by (apply (leb_trans 0.6 0.8 q); [reflexivity|assumption]).
        congruence.
      * destruct (PrimFloat.leb 0.4 q); split; intros _; tauto.
  - intros Hnan. split.
    + unfold app.quality_status.
      destruct (PrimFloat.leb 0.8 q) eqn:H8;
        [apply leb_is_number in H8; congruence|].
      destruct (PrimFloat.leb 0.6 q) eqn:H6;
        [apply leb_is_number in H6; congruence|].
      destruct (PrimFloat.leb 0.4 q) eqn:H4;
        [apply leb_is_number in H4; congruence|].
      reflexivity.
    + rewrite Hin. intros Hlt. apply ltb_left_is_number in Hlt. congruence.
Qed.

(** Replaces the lookups of literal keys in literal records of the goal by
    their values. *)
Ltac eval_lookups :=
  repeat match goal with
  | |- context [@lookup string pyval (gmap string pyval) _ ?k ?m] =>
      let v := eval vm_compute in (@lookup string pyval (gmap string pyval) _ k m) in
      lazymatch v with
      | Some _ => change (@lookup string pyval (gmap string pyval) _ k m) with v
      | None => change (@lookup string pyval (gmap string pyval) _ k m) with v
      end
  end.

(** X15.  A submission of the form is never refused and reaches the model
    unaltered: with a supply factor and a margin of at least 0.0 and five
    scores between 0.0 and 1.0, as the widgets allow, the record is
    accepted whatever the three selected labels are, and the frame passed
    on holds the two numbers and the five scores exactly as entered,
    between the codes of the three labels. *)
Theorem form_submission_is_accepted `{StrParsers}
    (substance unit source : string)
    (supply_wo_margin margin : float)
    (dq_reliability dq_temporal dq_geo dq_tech dq_data : float) :
  PrimFloat.leb 0%float supply_wo_margin = true ->
  PrimFloat.leb 0%float margin = true ->
  (forall dq, In dq [dq_reliability; dq_temporal; dq_geo; dq_tech; dq_data] ->
     PrimFloat.leb 0%float dq = true /\ PrimFloat.leb dq 1%float = true) ->
  let input_data :=
    app.input_data substance unit supply_wo_margin margin
      dq_reliability dq_temporal dq_geo dq_tech dq_data source in
  preprocessor.validate_input_data input_data = Ok (true, "Valid") /\
  exists substance_code unit_code source_code,
    run_frame preprocessor.preprocess_input (pd.of_record input_data) =
    Ok [ ("Substance", PyInt substance_code);
         ("Unit", PyInt unit_code);
         ("Supply Chain Emission Factors without Margins", PyFloat supply_wo_margin);
         ("Margins of Supply Chain Emission Factors", PyFloat margin);
         ("DQ ReliabilityScore of Factors without Margins", PyFloat dq_reliability);
         ("DQ TemporalCorrelation of Factors without Margins", PyFloat dq_temporal);
         ("DQ GeographicalCorrelation of Factors without Margins", PyFloat dq_geo);
         ("DQ TechnologicalCorrelation of Factors without Margins", PyFloat dq_tech);
         ("DQ DataCollection of Factors without Margins", PyFloat dq_data);
         ("Source", PyInt source_code) ] /\
    columnwise.encode "Substance" (PyStr substance) = Ok substance_code /\
    columnwise.encode "Unit" (PyStr unit) = Ok unit_code /\
    columnwise.encode "Source" (PyStr source) = Ok source_code.
Proof.
  intros Hsup Hmar Hdq input_data.
  destruct (Hdq dq_reliability) as [R0 R1]; [simpl; tauto|].
  destruct (Hdq dq_temporal) as [T0 T1]; [simpl; tauto|].
  destruct (Hdq dq_geo) as [G0 G1]; [simpl; tauto|].
  destruct (Hdq dq_tech) as [C0 C1]; [simpl; tauto|].
  destruct (Hdq dq_data) as [D0 D1]; [simpl; tauto|].
  assert (preprocessor.validate_input_data input_data = Ok (true, "Valid"))
    as Hvalid.
  { apply validate_valid_iff.
    unfold preprocessor.required_fields, preprocessor.numeric_fields,
           preprocessor.dq_fields, input_data, app.input_data.
    cbn [forallb]. unfold has_value, when_present. eval_lookups.
    unfold parses_not_below_zero, parses_in_unit. cbn [py_float].
    rewrite (leb_not_ltb _ _ Hsup), (leb_not_ltb _ _ Hmar).
    rewrite R0, R1, T0, T1, G0, G1, C0, C1, D0, D1.
    repeat split; reflexivity. }
  split; [exact Hvalid|].
  - exists (columnwise.code_of "Substance" (PyStr substance)),
           (columnwise.code_of "Unit" (PyStr unit)),
           (columnwise.code_of "Source" (PyStr source)).
    split; [|repeat split; apply encode_total; reflexivity].
    rewrite run_frame_preprocess_input
      by (apply valid_record_converts; exact Hvalid).
    unfold columnwise.output_frame, preprocessor.expected_columns.
    cbn [map]. rewrite !df_get_of_record.
    unfold input_data, app.input_data. eval_lookups.
    repeat match goal with
    | |- context [columnwise.final_cell ?c (Some (PyFloat ?x))] =>
        rewrite (final_cell_numeric c (Some (PyFloat x))) by (simpl; tauto)
    end.
    simpl default.
    rewrite !coerce_plain_number
      by (simpl; erewrite leb_is_number by eassumption; reflexivity).
    reflexivity.
Qed.

(** The defaults of the form: 0.05, 0.005 and five scores of 0.8. *)
Lemma form_submission_is_accepted_witness :
  preprocessor.validate_input_data (H := example_parsers)
    (app.input_data "carbon dioxide" "kg/2018 USD, purchaser price"
       0.05 0.005 0.8 0.8 0.8 0.8 0.8 "Commodity") = Ok (true, "Valid").
Proof.
  apply (form_submission_is_accepted (H := example_parsers)
           "carbon dioxide" "kg/2018 USD, purchaser price" "Commodity"
           0.05 0.005 0.8 0.8 0.8 0.8 0.8).
  - reflexivity.
  - reflexivity.
  - simpl. intros dq Hdq.
    repeat (destruct Hdq as [<-|Hdq]; [split; reflexivity|]). destruct Hdq.
Defined.

(** X16.  What one submission can lead to.  A rejected record ends in its
    validation message and an exception of the validation in the
    "Prediction Error" message, in both cases whatever the scaler and the
    model are: they are not consulted.  For an accepted record
    preprocessing does not fail; the scaler and the model receive a frame
    with the ten expected columns, and only they decide between a
    prediction, shown with its impact label, and the error message. *)
Theorem submit_outcomes `{StrParsers} (input_data : dict) :
  (forall error_msg,
     preprocessor.validate_input_data input_data = Ok (false, error_msg) ->
     forall scale_predict,
       app_submit.submit scale_predict input_data =
       app_submit.ValidationError error_msg) /\
  (forall e,
     preprocessor.validate_input_data input_data = Raise e ->
     forall scale_predict,
       app_submit.submit scale_predict input_data = app_submit.PredictionError e) /\
  (preprocessor.validate_input_data input_data = Ok (true, "Valid") ->
   exists input_df,
     run_frame preprocessor.preprocess_input (pd.of_record input_data)
       = Ok input_df /\
     pd.columns input_df = preprocessor.expected_columns /\
     forallb is_number (pd.values input_df) = true /\
     forall scale_predict,
       app_submit.submit scale_predict input_data =
       match scale_predict input_df with
       | Ok prediction_value =>
           app_submit.PredictionResult prediction_value
             (app.impact_level prediction_value)
       | Raise e => app_submit.PredictionError e
       end).
Proof.
  repeat split.
  - intros msg Hv sp. unfold app_submit.submit. rewrite Hv. reflexivity.
  - intros e Hv sp. unfold app_submit.submit. rewrite Hv. reflexivity.
  - intros Hv. exists (columnwise.output_frame (pd.of_record input_data)).
    pose proof (run_frame_preprocess_input _ (valid_record_converts _ Hv))
      as Hrun.
    split; [exact Hrun|].
    split; [reflexivity|].
    split.
    { unfold columnwise.output_frame, pd.values, preprocessor.expected_columns.
      cbn [map snd forallb].
      repeat match goal with
      | |- context [columnwise.final_cell ?c ?o] =>
          rewrite (final_cell_numeric c o) by (simpl; tauto)
      end.
      rewrite !coerce_is_number. reflexivity. }
    intros sp. unfold app_submit.submit.
    rewrite Hv, Hrun.
    destruct (sp _); reflexivity.
Qed.

(** X17.  The field tables of the sources agree.  The ten columns of the
    feature vector are the five required fields and the five data-quality
    fields of [validate_input_data], and [simple_test.py] uses the same
    ten columns in the same order.  Of the lists returned by
    [get_feature_importance_info], the categorical features are the
    encoded columns, the quality features are the data-quality fields in
    order, and the most important features are numeric columns. *)
Theorem field_tables_agree :
  (forall c, In c preprocessor.expected_columns <->
             In c preprocessor.required_fields \/ In c preprocessor.dq_fields) /\
  preprocessor.numeric_columns =
    preprocessor.numeric_fields ++ preprocessor.dq_fields /\
  simple_test.expected_columns = preprocessor.expected_columns /\
  preprocessor.categorical_features preprocessor.get_feature_importance_info
    = preprocessor.categorical_columns /\
  preprocessor.quality_features preprocessor.get_feature_importance_info
    = preprocessor.dq_fields /\
  (forall c,
     In c (preprocessor.most_important preprocessor.get_feature_importance_info) ->
     In c preprocessor.numeric_columns).
Proof.
  repeat split; try reflexivity; simpl; intros; intuition (subst; tauto).
Qed.
